(** * SpaceTraders MCP gateway: credential store, rate limiter, dispatcher

    A shallow embedding of [src/spacetraders_utils.py] (class
    [SpaceTradersClient]) and of the registration tool of [src/main.py],
    with the properties of the gateway stated and proved over it.

    Conventions of the embedding:
    - a Python [str] is a [string]; its characters are the code points
      0..255 (the program itself only writes ASCII);
    - [Dict[str, str]] is a [gmap string string];
    - [datetime] values and [timedelta]s are integers counting
      microseconds, the resolution of [datetime]; [total_seconds()] is
      that count divided by 10^6, and the rounding of the floating-point
      operations on it (below 10^-15 s) is left out;
    - the process environment (clock, file system, remote API, standard
      output) is an explicit [World], and every method is a function in a
      state-and-exception monad over the client object and the world;
    - every action on the world is appended to [trace], in program
      order. *)

From Stdlib Require Import ZArith List Ascii String Lia.
From stdpp Require Import base option list gmap strings pretty.

Local Open Scope string_scope.
Local Open Scope list_scope.
Local Open Scope Z_scope.

(** ** The [json] module of the standard library

    The decoder follows [json/decoder.py] and [json/scanner.py] (strict
    mode, the default); the encoder is [json.dumps] with its default
    [ensure_ascii], for the only objects the program serialises: flat
    objects of strings. *)

Module json.

Definition dquote : ascii := "034".
Definition backslash : ascii := "092".
Definition newline : ascii := "010".

#[local] Unset Elimination Schemes.
Inductive value :=
| Null
| Bool (b : bool)
| Num (lexeme : string)
| Str (s : string)
| Arr (items : list value)
| Obj (pairs : list (string * value)).
#[local] Set Elimination Schemes.

(** A decoding step yields a result, fails with [JSONDecodeError], or
    meets what the embedding does not decide: a code point above 255,
    or a text that CPython refuses or not according to the limits of
    the interpreter, an integer of more than [max_str_digits] digits
    ([ValueError], unless the limit of [int] was changed) or a nesting
    deeper than [max_depth] ([RecursionError], at a depth that the
    recursion limit and the call stack decide). *)
Inductive outcome (A : Type) :=
| Done (a : A)
| SyntaxError
| Outside.
Arguments Done {A} a.
Arguments SyntaxError {A}.
Arguments Outside {A}.

Definition code (c : ascii) : N := N_of_ascii c.

(** [sys.int_info.default_max_str_digits]. *)
Definition max_str_digits : nat := 4300.

(** A depth of nesting that the recursion limit leaves to the scanner
    wherever the program calls it. *)
Definition max_depth : nat := 100.

(** *** Encoding *)

Definition hex_digit (n : N) : ascii :=
  if (n <? 10)%N then ascii_of_N (48 + n) else ascii_of_N (87 + n).

(** [ESCAPE_ASCII] and [ESCAPE_DCT] of [json/encoder.py]. *)
Definition escape_char (c : ascii) : string :=
  if (c =? dquote)%char then String backslash (String dquote "")
  else if (c =? backslash)%char then String backslash (String backslash "")
  else if (c =? "010")%char then String backslash "n"
  else if (c =? "013")%char then String backslash "r"
  else if (c =? "009")%char then String backslash "t"
  else if (c =? "008")%char then String backslash "b"
  else if (c =? "012")%char then String backslash "f"
  else if (32 <=? code c)%N && (code c <=? 126)%N then String c ""
  else String backslash
         (String "u" (String "0" (String "0"
            (String (hex_digit (code c / 16)) (String (hex_digit (code c mod 16)) ""))))).

(** The encoders take the text that follows as a last argument. *)
Fixpoint put_chars (s : string) (k : string) : string :=
  match s with
  | "" => k
  | String c s' => escape_char c +:+ put_chars s' k
  end.

Definition put_string (s : string) (k : string) : string :=
  String dquote (put_chars s (String dquote k)).

Definition put_item (kv : string * string) (k : string) : string :=
  put_string kv.1 (": " +:+ put_string kv.2 k).

Fixpoint put_items (sep : string) (items : list (string * string)) (k : string) : string :=
  match items with
  | [] => k
  | [kv] => put_item kv k
  | kv :: rest => put_item kv (sep +:+ put_items sep rest k)
  end.

Fixpoint spaces (n : nat) : string :=
  match n with
  | O => ""
  | S n' => String " " (spaces n')
  end.

(** [json.dumps(obj, indent=indent)] for [obj : Dict[str, str]], given
    as its items in iteration order. *)
Definition dumps (indent : option nat) (items : list (string * string)) : string :=
  match items with
  | [] => "{}"
  | _ =>
      match indent with
      | None => String "{" (put_items ", " items "}")
      | Some n =>
          let newline_indent := String newline (spaces n) in
          String "{" (newline_indent +:+
            put_items ("," +:+ newline_indent) items (String newline "}"))
      end
  end.

(** *** Decoding *)

Definition is_ws (c : ascii) : bool :=
  (c =? " ")%char || (c =? "009")%char || (c =? "010")%char || (c =? "013")%char.

Fixpoint skip_ws (s : string) : string :=
  match s with
  | String c s' => if is_ws c then skip_ws s' else s
  | "" => ""
  end.

Definition hex_val (c : ascii) : option N :=
  let n := code c in
  if (48 <=? n)%N && (n <=? 57)%N then Some (n - 48)%N
  else if (97 <=? n)%N && (n <=? 102)%N then Some (n - 87)%N
  else if (65 <=? n)%N && (n <=? 70)%N then Some (n - 55)%N
  else None.

(** [BACKSLASH] of [json/decoder.py]. *)
Definition unescape (c : ascii) : option ascii :=
  if (c =? dquote)%char then Some dquote
  else if (c =? backslash)%char then Some backslash
  else if (c =? "/")%char then Some "/"%char
  else if (c =? "b")%char then Some "008"%char
  else if (c =? "f")%char then Some "012"%char
  else if (c =? "n")%char then Some "010"%char
  else if (c =? "r")%char then Some "013"%char
  else if (c =? "t")%char then Some "009"%char
  else None.

Definition push (c : ascii) (r : outcome (string * string)) : outcome (string * string) :=
  match r with
  | Done (str, rest) => Done (String c str, rest)
  | SyntaxError => SyntaxError
  | Outside => Outside
  end.

(** [scanstring]: the text after an opening quote, up to the closing one. *)
Fixpoint scanstring (s : string) : outcome (string * string) :=
  match s with
  | "" => SyntaxError
  | String c s' =>
      if (c =? dquote)%char then Done ("", s')
      else if (c =? backslash)%char then
        match s' with
        | "" => SyntaxError
        | String esc s'' =>
            if (esc =? "u")%char then
              match s'' with
              | String h1 (String h2 (String h3 (String h4 s3))) =>
                  match hex_val h1, hex_val h2, hex_val h3, hex_val h4 with
                  | Some a, Some b, Some c', Some d =>
                      let uni := (((a * 16 + b) * 16 + c') * 16 + d)%N in
                      if (uni <? 256)%N then push (ascii_of_N uni) (scanstring s3)
                      else Outside
                  | _, _, _, _ => SyntaxError
                  end
              | _ => SyntaxError
              end
            else
              match unescape esc with
              | Some ch => push ch (scanstring s'')
              | None => SyntaxError
              end
        end
      else if (code c <? 32)%N then SyntaxError
      else push c (scanstring s')
  end.

Definition is_digit (c : ascii) : bool := (48 <=? code c)%N && (code c <=? 57)%N.

Fixpoint span_digits (s : string) : string * string :=
  match s with
  | String c s' =>
      if is_digit c then let '(ds, rest) := span_digits s' in (String c ds, rest)
      else ("", s)
  | "" => ("", "")
  end.

Fixpoint strip_prefix (p s : string) : option string :=
  match p, s with
  | "", _ => Some s
  | String a p', String b s' => if (a =? b)%char then strip_prefix p' s' else None
  | String _ _, "" => None
  end.

(** [NUMBER_RE]: an optional minus sign, then 0 or a digit 1-9 followed
    by digits; then, if present, a dot with at least one digit; then, if
    present, e or E, an optional sign and at least one digit. *)
Definition match_number (s : string) : option (string * string) :=
  let '(sign, s1) :=
    match s with
    | String c t => if (c =? "-")%char then ("-", t) else ("", s)
    | "" => ("", s)
    end in
  match s1 with
  | "" => None
  | String c t =>
      if negb (is_digit c) then None
      else
        let '(int, s2) :=
          if (c =? "0")%char then ("0", t)
          else let '(ds, rest) := span_digits t in (String c ds, rest) in
        let '(frac, s3) :=
          match s2 with
          | String p t2 =>
              if (p =? ".")%char then
                match span_digits t2 with
                | ("", _) => ("", s2)
                | (ds, rest) => (String p ds, rest)
                end
              else ("", s2)
          | "" => ("", s2)
          end in
        let '(exp, s4) :=
          match s3 with
          | String e t3 =>
              if (e =? "e")%char || (e =? "E")%char then
                let '(sg, t4) :=
                  match t3 with
                  | String g t5 =>
                      if (g =? "-")%char || (g =? "+")%char then (String g "", t5) else ("", t3)
                  | "" => ("", t3)
                  end in
                match span_digits t4 with
                | ("", _) => ("", s3)
                | (ds, rest) => (String e (sg +:+ ds), rest)
                end
              else ("", s3)
          | "" => ("", s3)
          end in
        Some (sign +:+ int +:+ frac +:+ exp, s4)
  end.

(** The number of digits of the lexeme of an [int]; a lexeme with a
    fraction or an exponent is a [float], and has no limit. *)
Fixpoint int_digits (lexeme : string) : option nat :=
  match lexeme with
  | "" => Some O
  | String c rest =>
      if (c =? "-")%char then int_digits rest
      else if is_digit c then
        match int_digits rest with
        | Some n => Some (S n)
        | None => None
        end
      else None
  end.

(** [int(lexeme)] or [float(lexeme)] *)
Definition number (lexeme : string) : outcome value :=
  match int_digits lexeme with
  | Some n => if (max_str_digits <? n)%nat then Outside else Done (Num lexeme)
  | None => Done (Num lexeme)
  end.

Definition literal (s : string) : outcome (value * string) :=
  match strip_prefix "null" s with
  | Some rest => Done (Null, rest)
  | None =>
  match strip_prefix "true" s with
  | Some rest => Done (Bool true, rest)
  | None =>
  match strip_prefix "false" s with
  | Some rest => Done (Bool false, rest)
  | None =>
  match match_number s with
  | Some (lexeme, rest) =>
      match number lexeme with
      | Done v => Done (v, rest)
      | SyntaxError => SyntaxError
      | Outside => Outside
      end
  | None =>
  match strip_prefix "NaN" s with
  | Some rest => Done (Num "NaN", rest)
  | None =>
  match strip_prefix "Infinity" s with
  | Some rest => Done (Num "Infinity", rest)
  | None =>
  match strip_prefix "-Infinity" s with
  | Some rest => Done (Num "-Infinity", rest)
  | None => SyntaxError
  end end end end end end end.

(** [scan_once], [JSONObject] and [JSONArray]. [fuel] bounds the number
    of steps, [depth] is the number of objects and arrays that may still
    be entered, one inside the other. [object_loop] starts after the
    opening quote of a key, [array_loop] at an element. *)
Fixpoint scan_once (fuel depth : nat) (s : string) {struct fuel} : outcome (value * string) :=
  match fuel with
  | O => Outside
  | S fuel' =>
      match s with
      | "" => SyntaxError
      | String c s' =>
          if (c =? dquote)%char then
            match scanstring s' with
            | Done (str, rest) => Done (Str str, rest)
            | SyntaxError => SyntaxError
            | Outside => Outside
            end
          else if (c =? "{")%char then
            match depth with
            | O => Outside
            | S depth' =>
                match skip_ws s' with
                | "" => SyntaxError
                | String d t =>
                    if (d =? "}")%char then Done (Obj [], t)
                    else if (d =? dquote)%char then object_loop fuel' depth' t []
                    else SyntaxError
                end
            end
          else if (c =? "[")%char then
            match depth with
            | O => Outside
            | S depth' =>
                match skip_ws s' with
                | "" => SyntaxError
                | String d t =>
                    if (d =? "]")%char then Done (Arr [], t)
                    else array_loop fuel' depth' (String d t) []
                end
            end
          else literal s
      end
  end
with object_loop (fuel depth : nat) (s : string) (pairs : list (string * value)) {struct fuel}
    : outcome (value * string) :=
  match fuel with
  | O => Outside
  | S fuel' =>
      match scanstring s with
      | Done (key, r) =>
          match skip_ws r with
          | "" => SyntaxError
          | String c r1 =>
              if negb (c =? ":")%char then SyntaxError
              else
                match scan_once fuel' depth (skip_ws r1) with
                | Done (v, r2) =>
                    match skip_ws r2 with
                    | "" => SyntaxError
                    | String d r3 =>
                        if (d =? "}")%char then Done (Obj (pairs ++ [(key, v)]), r3)
                        else if (d =? ",")%char then
                          match skip_ws r3 with
                          | "" => SyntaxError
                          | String q r4 =>
                              if (q =? dquote)%char
                              then object_loop fuel' depth r4 (pairs ++ [(key, v)])
                              else SyntaxError
                          end
                        else SyntaxError
                    end
                | SyntaxError => SyntaxError
                | Outside => Outside
                end
          end
      | SyntaxError => SyntaxError
      | Outside => Outside
      end
  end
with array_loop (fuel depth : nat) (s : string) (items : list value) {struct fuel}
    : outcome (value * string) :=
  match fuel with
  | O => Outside
  | S fuel' =>
      match scan_once fuel' depth s with
      | Done (v, r) =>
          match skip_ws r with
          | "" => SyntaxError
          | String d r1 =>
              if (d =? "]")%char then Done (Arr (items ++ [v]), r1)
              else if (d =? ",")%char then array_loop fuel' depth (skip_ws r1) (items ++ [v])
              else SyntaxError
          end
      | SyntaxError => SyntaxError
      | Outside => Outside
      end
  end.

(** [json.loads]: one value, with white space around it and nothing else. *)
Definition loads (s : string) : outcome value :=
  match scan_once (S (String.length s)) max_depth (skip_ws s) with
  | Done (v, rest) =>
      match skip_ws rest with
      | "" => Done v
      | String _ _ => SyntaxError
      end
  | SyntaxError => SyntaxError
  | Outside => Outside
  end.

(** [dict(pairs)] and [dict.get]: the last pair of a key is the one kept. *)
Fixpoint get (key : string) (pairs : list (string * value)) : option value :=
  match pairs with
  | [] => None
  | (k, v) :: rest =>
      match get key rest with
      | Some v' => Some v'
      | None => if String.eqb k key then Some v else None
      end
  end.

(** A decoded object as a [Dict[str, str]], when it is one. *)
Fixpoint as_str_dict (pairs : list (string * value)) (acc : gmap string string)
    : option (gmap string string) :=
  match pairs with
  | [] => Some acc
  | (k, Str v) :: rest => as_str_dict rest (<[k := v]> acc)
  | _ :: _ => None
  end.

(** JSON texts are written below with apostrophes for the double
    quotes: [text s] is [s] with each apostrophe turned into one. *)
Fixpoint text (s : string) : string :=
  match s with
  | "" => ""
  | String c s' => String (if (c =? "'")%char then dquote else c) (text s')
  end.

End json.

(** ** The environment *)

(** [requests.Response]: the status code and the body text. *)
Record Response := mkResponse {
  status_code : Z;
  text : string;
}.

(** What [requests.request] is called with. [kwargs] are the keyword
    arguments that [make_request] forwards untouched ([data], ...). *)
Record Request := mkRequest {
  req_method : string;
  req_url : string;
  req_headers : gmap string string;
  req_kwargs : gmap string string;
}.

(** Python exceptions raised on the paths that are modelled. *)
Inductive exn :=
| ValueError (msg : string)
| JSONDecodeError
| PermissionError
| FileNotFoundError
| AttributeError
| TypeError
| ConnectionError (msg : string).

(** What the remote end does with a request: it answers, or the call
    raises (connection refused, timeout, DNS failure). *)
Inductive Reply :=
| Responds (r : Response)
| Fails (e : exn).

(** A file of the working directory: one that can be read and written,
    or one that exists and cannot be opened. *)
Inductive File :=
| Readable (content : string)
| Locked.

(** The actions of the program on its environment: a clock reading and
    its value, a sleep and its duration, a request sent, a file written,
    a line printed, and a line printed that is [prefix] followed by the
    text of an exception. *)
Inductive Event :=
| EvNow (t : Z)
| EvSleep (d : Z)
| EvRequest (r : Request)
| EvWrite (path content : string)
| EvPrint (line : string)
| EvPrintError (prefix : string) (e : exn).

(** The environment: the clock, the time that the next clock actions
    take, the files, [SPACETRADERS_API_KEY], the remote end, and the
    actions so far. *)
Record World := mkWorld {
  clock : Z;
  lag : list Z;
  fs : gmap string File;
  api_key : option string;
  remote : Request -> Reply;
  trace : list Event;
}.

(** ** The client object *)

Record SpaceTradersClient := mkClient {
  base_url : string;
  tokens : gmap string string;
  last_request_time : Z;
  account_token : option string;
}.

Record State := mkState {
  self : SpaceTradersClient;
  world : World;
}.

(** ** State and exceptions *)

(** The outcome of a call: a value, an exception, or [Beyond] when the
    run leaves the fragment that the type annotations of the source
    describe ([Dict[str, str]], [str] arguments); the embedding says
    nothing about such a run, and no [except] clause sees it. *)
Inductive result (A : Type) :=
| Ok (a : A)
| Raise (e : exn)
| Beyond.
Arguments Ok {A} a.
Arguments Raise {A} e.
Arguments Beyond {A}.

Definition M (A : Type) : Type := State -> result A * State.

Definition ret {A} (a : A) : M A := fun s => (Ok a, s).

Definition raise {A} (e : exn) : M A := fun s => (Raise e, s).

Definition beyond {A} : M A := fun s => (Beyond, s).

Definition bind {A B} (c : M A) (k : A -> M B) : M B :=
  fun s =>
    match c s with
    | (Ok a, s') => k a s'
    | (Raise e, s') => (Raise e, s')
    | (Beyond, s') => (Beyond, s')
    end.

#[global] Instance M_ret : MRet M := @ret.
#[global] Instance M_bind : MBind M := fun A B k c => bind c k.

Definition get_self : M SpaceTradersClient := fun s => (Ok (self s), s).

Definition put_self (c : SpaceTradersClient) : M unit :=
  fun s => (Ok tt, mkState c (world s)).

Definition get_world : M World := fun s => (Ok (world s), s).

Definition put_world (w : World) : M unit :=
  fun s => (Ok tt, mkState (self s) w).

Definition emit (e : Event) (w : World) : World :=
  mkWorld (clock w) (lag w) (fs w) (api_key w) (remote w) (trace w ++ [e]).

(** Time goes by while the program runs: each clock action consumes the
    next entry of [lag] (nothing once the list is empty). *)
Definition tick (w : World) : World :=
  match lag w with
  | [] => w
  | d :: ds => mkWorld (clock w + d) ds (fs w) (api_key w) (remote w) (trace w)
  end.

(** [datetime.now()] *)
Definition datetime_now : M Z :=
  w ← get_world;
  let w := tick w in
  put_world (emit (EvNow (clock w)) w) ;;
  ret (clock w).

(** [time.sleep(d)]: returns no earlier than [d] after the call. *)
Definition advance (d : Z) (w : World) : World :=
  mkWorld (clock w + d) (lag w) (fs w) (api_key w) (remote w) (trace w).

Definition time_sleep (d : Z) : M unit :=
  w ← get_world;
  put_world (tick (advance d (emit (EvSleep d) w))).

(** [requests.request(method, url, headers=headers, **kwargs)] *)
Definition requests_request (r : Request) : M Response :=
  w ← get_world;
  put_world (emit (EvRequest r) w) ;;
  match remote w r with
  | Responds resp => ret resp
  | Fails e => raise e
  end.

(** [print(line)] *)
Definition print (line : string) : M unit :=
  w ← get_world;
  put_world (emit (EvPrint line) w).

(** Truth value of an [Optional[str]]: [None] and [""] are false. *)
Definition truthy (o : option string) : bool :=
  match o with
  | None => false
  | Some "" => false
  | Some _ => true
  end.

(** ** Constants of [spacetraders_utils.py] *)

Definition TOKENS_FILE : string := "agent_tokens.json".
Definition RATE_LIMIT_REQUESTS : Z := 2.
Definition RATE_LIMIT_PERIOD : Z := 1.

(** [1.0 / RATE_LIMIT_REQUESTS] seconds, in microseconds. *)
Definition min_interval : Z := 1000000 / RATE_LIMIT_REQUESTS.

(** ** [SpaceTradersClient] *)

Definition set_last_request_time (t : Z) (c : SpaceTradersClient) : SpaceTradersClient :=
  mkClient (base_url c) (tokens c) t (account_token c).

Definition set_tokens (m : gmap string string) (c : SpaceTradersClient) : SpaceTradersClient :=
  mkClient (base_url c) m (last_request_time c) (account_token c).

(** [get_token] *)
Definition get_token (agent_symbol : string) : M (option string) :=
  c ← get_self;
  ret (tokens c !! agent_symbol).

(** [_rate_limit] *)
Definition _rate_limit : M unit :=
  now ← datetime_now;
  c ← get_self;
  let elapsed := now - last_request_time c in
  (if elapsed <? min_interval
   then time_sleep (min_interval - elapsed)
   else ret tt) ;;
  now' ← datetime_now;
  c ← get_self;
  put_self (set_last_request_time now' c).

(** [endpoint.lstrip('/')] *)
Fixpoint lstrip_slash (s : string) : string :=
  match s with
  | String "/" s' => lstrip_slash s'
  | _ => s
  end.

(** The keyword arguments of a call of [make_request]: [headers] if
    given, and the others. *)
Record Kwargs := mkKwargs {
  kw_headers : option (gmap string string);
  kw_others : gmap string string;
}.

Definition no_kwargs : Kwargs := mkKwargs None ∅.

Definition MISSING_KEY : string :=
  "SPACETRADERS_API_KEY not found in environment variables".

(** [make_request] *)
Definition make_request (method endpoint : string) (agent_symbol : option string)
    (use_account_token : bool) (kwargs : Kwargs) : M Response :=
  _rate_limit ;;
  c ← get_self;
  let url := base_url c +:+ "/" +:+ lstrip_slash endpoint in
  let headers := default ∅ (kw_headers kwargs) in
  let headers := <["Content-Type" := "application/json"]> headers in
  headers ←
    (if use_account_token then
       if negb (truthy (account_token c))
       then raise (ValueError MISSING_KEY)
       else ret (<["Authorization" := "Bearer " +:+ default "" (account_token c)]> headers)
     else if truthy agent_symbol then
       token ← get_token (default "" agent_symbol);
       if truthy token
       then ret (<["Authorization" := "Bearer " +:+ default "" token]> headers)
       else ret headers
     else ret headers);
  requests_request (mkRequest method url headers (kw_others kwargs)).

(** ** The token file *)

Definition set_fs (files : gmap string File) (w : World) : World :=
  mkWorld (clock w) (lag w) files (api_key w) (remote w) (trace w).

(** [Path(path).exists()] *)
Definition path_exists (path : string) : M bool :=
  w ← get_world;
  ret (bool_decide (is_Some (fs w !! path))).

(** [open(path, 'r')] and [f.read()] *)
Definition read_file (path : string) : M string :=
  w ← get_world;
  match fs w !! path with
  | Some (Readable content) => ret content
  | Some Locked => raise PermissionError
  | None => raise FileNotFoundError
  end.

(** [open(path, 'w')] and the writes up to the end of the [with] block. *)
Definition write_file (path content : string) : M unit :=
  w ← get_world;
  match fs w !! path with
  | Some Locked => raise PermissionError
  | _ => put_world (emit (EvWrite path content) (set_fs (<[path := Readable content]> (fs w)) w))
  end.

(** [json.load(f)], read at its annotated type [Dict[str, str]]. *)
Definition json_load (content : string) : M (gmap string string) :=
  match json.loads content with
  | json.Done (json.Obj pairs) =>
      match json.as_str_dict pairs ∅ with
      | Some m => ret m
      | None => beyond
      end
  | json.Done _ => beyond
  | json.SyntaxError => raise JSONDecodeError
  | json.Outside => beyond
  end.

(** [_load_tokens] *)
Definition _load_tokens : M (gmap string string) :=
  present ← path_exists TOKENS_FILE;
  if present : bool then
    content ← read_file TOKENS_FILE;
    json_load content
  else ret ∅.

(** [_save_tokens]. The items are written in the order of
    [map_to_list]; Python writes them in the order of insertion, which
    is not observed when the file is read back into a [dict]. *)
Definition _save_tokens : M unit :=
  c ← get_self;
  write_file TOKENS_FILE (json.dumps (Some 2%nat) (map_to_list (tokens c))).

(** [store_token] *)
Definition store_token (agent_symbol token : string) : M unit :=
  c ← get_self;
  put_self (set_tokens (<[agent_symbol := token]> (tokens c)) c);;
  _save_tokens.

(** [__init__], run on the object being constructed. *)
Definition __init__ (url : string) : M unit :=
  c ← get_self;
  put_self (mkClient url (tokens c) (last_request_time c) (account_token c));;
  loaded ← _load_tokens;
  c ← get_self;
  put_self (set_tokens loaded c);;
  now ← datetime_now;
  c ← get_self;
  put_self (set_last_request_time now c);;
  w ← get_world;
  c ← get_self;
  put_self (mkClient (base_url c) (tokens c) (last_request_time c) (api_key w));;
  if negb (truthy (api_key w))
  then print "Warning: SPACETRADERS_API_KEY not found in environment variables"
  else ret tt.

(** [client = SpaceTradersClient()], in a world [w]. *)
Definition new_client (w : World) : result unit * State :=
  __init__ "https://api.spacetraders.io/v2" (mkState (mkClient "" ∅ 0 None) w).

(** ** [main.py]: the registration tool *)

(** [str.isspace] on the code points below 256. *)
Definition isspace (c : ascii) : bool :=
  let n := json.code c in
  ((9 <=? n)%N && (n <=? 13)%N) || ((28 <=? n)%N && (n <=? 32)%N)
  || (n =? 133)%N || (n =? 160)%N.

(** [text.split()] *)
Fixpoint split_from (word : string) (s : string) : list string :=
  match s with
  | "" => match word with "" => [] | _ => [word] end
  | String c s' =>
      if isspace c
      then match word with "" => split_from "" s' | _ => word :: split_from "" s' end
      else split_from (word +:+ String c "") s'
  end.

Definition split (s : string) : list string := split_from "" s.

(** [str.lower] on the code points below 256. *)
Definition lower_char (c : ascii) : ascii :=
  let n := json.code c in
  if ((65 <=? n)%N && (n <=? 90)%N)
     || ((192 <=? n)%N && (n <=? 222)%N && negb (n =? 215)%N)
  then ascii_of_N (n + 32) else c.

Fixpoint lower (s : string) : string :=
  match s with
  | "" => ""
  | String c s' => String (lower_char c) (lower s')
  end.

(** The loop over [enumerate(parts)]: [parts] is what is left to visit,
    so [i + 1 < len(parts)] holds when a word follows. *)
Fixpoint scan_parts (parts : list string) (callsign : option string) (faction : string)
    : option string * string :=
  match parts with
  | [] => (callsign, faction)
  | word :: rest =>
      match rest with
      | next :: _ =>
          if String.eqb (lower word) "callsign:" then scan_parts rest (Some next) faction
          else if String.eqb (lower word) "faction:" then scan_parts rest callsign next
          else scan_parts rest callsign faction
      | [] => (callsign, faction)
      end
  end.

(** [ctx.request_context.lifespan_context]; its [client] is the global
    instance, the [self] of the state. *)
Record SpaceTradersContext := mkContext {
  initialized : bool;
}.

Definition NOT_INITIALIZED : string :=
  "Server initialization not complete. Please wait and try again.".

(** [check_initialization] *)
Definition check_initialization (ctx : option SpaceTradersContext) : M unit :=
  match ctx with
  | Some c => if initialized c then ret tt else raise (ValueError NOT_INITIALIZED)
  | None => raise (ValueError NOT_INITIALIZED)
  end.

(** [try: body except Exception as e: handler(e)] *)
Definition try_except {A} (body : M A) (handler : exn -> M A) : M A :=
  fun s =>
    match body s with
    | (Raise e, s') => handler e s'
    | r => r
    end.

(** [response.json()] *)
Definition response_json (r : Response) : M json.value :=
  match json.loads (text r) with
  | json.Done v => ret v
  | json.SyntaxError => raise JSONDecodeError
  | json.Outside => beyond
  end.

(** [d.get(key)] on a decoded value: only objects have [get]. *)
Definition dict_get (d : json.value) (key : string) : M (option json.value) :=
  match d with
  | json.Obj pairs => ret (json.get key pairs)
  | _ => raise AttributeError
  end.

(** [d.get(key, default)] *)
Definition dict_get_default (d : json.value) (key : string) (dflt : json.value)
    : M json.value :=
  v ← dict_get d key;
  ret (default dflt v).

(** [str(v)] of what an f-string interpolates, for the values whose
    text does not depend on number formatting. *)
Definition format_value (v : option json.value) : M string :=
  match v with
  | None | Some json.Null => ret "None"
  | Some (json.Str s) => ret s
  | Some (json.Bool true) => ret "True"
  | Some (json.Bool false) => ret "False"
  | Some _ => beyond
  end.

(** [client.store_token(symbol, token)] with what [dict.get] returned:
    a list or an object is unhashable and cannot be a key. *)
Definition store_token_value (symbol token : option json.value) : M unit :=
  match symbol, token with
  | Some (json.Arr _), _ | Some (json.Obj _), _ => raise TypeError
  | Some (json.Str sym), Some (json.Str tok) => store_token sym tok
  | _, _ => beyond
  end.

(** What a tool returns: a string, or a string that ends with [str(e)]
    for the exception [e] that was caught. *)
Inductive Answer :=
| Text (s : string)
| TextAndError (prefix : string) (e : exn).

Definition NO_CALLSIGN : string :=
  "Please provide a callsign for registration. Format: 'Register with callsign: CALLSIGN and faction: FACTION'".

(** The statements of the [try] block of [Register_Users] that follow
    the request. *)
Definition registration_reply (response : Response) : M Answer :=
  if status_code response =? 201 then
    result ← response_json response;
    data ← dict_get_default result "data" (json.Obj []);
    token ← dict_get data "token";
    data ← dict_get_default result "data" (json.Obj []);
    agent_data ← dict_get_default data "agent" (json.Obj []);
    symbol ← dict_get agent_data "symbol";
    store_token_value symbol token;;
    symbol ← dict_get agent_data "symbol";
    shown ← format_value symbol;
    starting ← dict_get agent_data "startingFaction";
    faction_shown ← format_value starting;
    ret (Text ("Successfully registered agent " +:+ shown +:+ " with faction "
               +:+ faction_shown +:+ ". Token has been stored for future use."))
  else
    body ← response_json response;
    error ← dict_get_default body "error" (json.Obj []);
    error_message ← dict_get_default error "message" (json.Str "Unknown error");
    shown ← format_value (Some error_message);
    ret (Text ("Registration failed: " +:+ shown +:+ " (Status code: "
               +:+ pretty (status_code response) +:+ ")")).

(** The keyword arguments of the registration request. *)
Definition registration_kwargs (callsign faction : string) : Kwargs :=
  let registration_data := [("symbol", callsign); ("faction", faction)] in
  mkKwargs None {["data" := json.dumps None registration_data]}.

(** [Register_Users] *)
Definition Register_Users (ctx : option SpaceTradersContext) (txt : string) : M Answer :=
  check_initialization ctx;;
  let parts := split txt in
  let '(callsign, faction) := scan_parts parts None "COSMIC" in
  if negb (truthy callsign) then ret (Text NO_CALLSIGN)
  else
    try_except
      (response ← make_request "POST" "register" None true
                   (registration_kwargs (default "" callsign) faction);
       registration_reply response)
      (fun e => ret (TextAndError "Error during registration: " e)).

(** ** [main.py]: tools that read *)

(** A number of a decoded text is an [int] when its lexeme has no
    fraction and no exponent, and is none of NaN and the infinities. *)
Fixpoint int_lexeme (lexeme : string) : bool :=
  match lexeme with
  | "" => true
  | String c rest => ((c =? "-")%char || json.is_digit c) && int_lexeme rest
  end.

(** [json.dumps] of what [dict.get] returned, for the values whose text
    needs neither the formatting of a [float] nor nesting: a missing key
    is [None] and gives [null]; an [int] is written in decimal, so the
    lexeme of minus zero, which is the [int] zero, gives 0. *)
Definition dump_scalar (v : option json.value) : option string :=
  match v with
  | None | Some json.Null => Some "null"
  | Some (json.Bool true) => Some "true"
  | Some (json.Bool false) => Some "false"
  | Some (json.Str s) => Some (json.put_string s "")
  | Some (json.Num lexeme) =>
      if int_lexeme lexeme && (String.length lexeme <=? 4000)%nat
      then Some (if String.eqb lexeme "-0" then "0" else lexeme)
      else None
  | Some (json.Arr []) => Some "[]"
  | Some (json.Obj []) => Some "{}"
  | Some (json.Arr (_ :: _)) | Some (json.Obj (_ :: _)) => None
  end.

Fixpoint put_fields (fields : list (string * string)) : string :=
  match fields with
  | [] => ""
  | [(key, shown)] => json.put_string key (": " +:+ shown)
  | (key, shown) :: rest =>
      json.put_string key (": " +:+ shown +:+ String "," (String json.newline "  "))
      +:+ put_fields rest
  end.

(** [json.dumps(result, indent=2)] for a [result] whose keys are
    literal and whose values [dict.get] returned. *)
Definition dumps_result (result : list (string * option json.value)) : M string :=
  match mapM (fun field => pair field.1 <$> dump_scalar field.2) result with
  | Some [] => ret "{}"
  | Some fields =>
      ret (String "{" (String json.newline "  ") +:+ put_fields fields
           +:+ String json.newline "}")
  | None => beyond
  end.

(** The [else] branch of the tools: the message of the error of the
    body, and the status code, after [prefix]. *)
Definition failure (prefix : string) (response : Response) : M Answer :=
  body ← response_json response;
  error ← dict_get_default body "error" (json.Obj []);
  error_message ← dict_get_default error "message" (json.Str "Unknown error");
  shown ← format_value (Some error_message);
  ret (Text (prefix +:+ ": " +:+ shown +:+ " (Status code: "
             +:+ pretty (status_code response) +:+ ")")).

(** The branch for status 200 of [View_Agent_Details] and of
    [Get_Public_Agent]. *)
Definition agent_details (response : Response) : M Answer :=
  body ← response_json response;
  agent_data ← dict_get_default body "data" (json.Obj []);
  symbol ← dict_get agent_data "symbol";
  headquarters ← dict_get agent_data "headquarters";
  credits ← dict_get agent_data "credits";
  startingFaction ← dict_get agent_data "startingFaction";
  shipCount ← dict_get agent_data "shipCount";
  shown ← dumps_result [("symbol", symbol); ("headquarters", headquarters);
                        ("credits", credits); ("startingFaction", startingFaction);
                        ("shipCount", shipCount)];
  ret (Text shown).

(** [View_Agent_Details] *)
Definition View_Agent_Details (ctx : option SpaceTradersContext) (agent_symbol : string)
    : M Answer :=
  check_initialization ctx;;
  try_except
    (response ← make_request "GET" "my/agent" (Some agent_symbol) false no_kwargs;
     if status_code response =? 200 then agent_details response
     else failure "Failed to get agent details" response)
    (fun e => ret (TextAndError "Error retrieving agent details: " e)).

(** [Get_Public_Agent] *)
Definition Get_Public_Agent (ctx : option SpaceTradersContext) (agent_symbol : string)
    : M Answer :=
  check_initialization ctx;;
  try_except
    (response ← make_request "GET" ("agents/" +:+ agent_symbol) None false no_kwargs;
     if status_code response =? 200 then agent_details response
     else failure "Failed to get public agent details" response)
    (fun e => ret (TextAndError "Error retrieving public agent details: " e)).

(** [Get_Ship_Cooldown] *)
Definition Get_Ship_Cooldown (ctx : option SpaceTradersContext)
    (agent_symbol ship_symbol : string) : M Answer :=
  check_initialization ctx;;
  try_except
    (response ← make_request "GET" ("my/ships/" +:+ ship_symbol +:+ "/cooldown")
                   (Some agent_symbol) false no_kwargs;
     if status_code response =? 204 then ret (Text "No cooldown")
     else if status_code response =? 200 then
       body ← response_json response;
       cooldown ← dict_get_default body "data" (json.Obj []);
       shipSymbol ← dict_get cooldown "shipSymbol";
       totalSeconds ← dict_get cooldown "totalSeconds";
       remainingSeconds ← dict_get cooldown "remainingSeconds";
       expiration ← dict_get cooldown "expiration";
       shown ← dumps_result [("shipSymbol", shipSymbol); ("totalSeconds", totalSeconds);
                             ("remainingSeconds", remainingSeconds);
                             ("expiration", expiration)];
       ret (Text shown)
     else failure "Failed to get ship cooldown" response)
    (fun e => ret (TextAndError "Error getting ship cooldown: " e)).

(** ** [utils.py] *)

Definition NO_KEY : string :=
  "SPACETRADERS_API_KEY not found in environment variables. Please set it in your .env file.".

(** [get_spacetraders_api_key] *)
Definition get_spacetraders_api_key : M string :=
  w ← get_world;
  if negb (truthy (api_key w)) then raise (ValueError NO_KEY)
  else ret (default "" (api_key w)).

(** ** [main.py]: the lifespan of the server *)

(** The globals of [main.py]: the context objects created so far (a
    reference to one is its index), the global [context], which is
    [None] or a reference, and the state of the global client and of
    the world. *)
Record Server := mkServer {
  objects : list SpaceTradersContext;
  context : option nat;
  state : State;
}.

(** [str(e)], for the exceptions that carry their text. *)
Definition str (e : exn) : option string :=
  match e with
  | ValueError msg | ConnectionError msg => Some msg
  | _ => None
  end.

(** The [finally] clause of [spacetraders_lifespan]. *)
Definition lifespan_finally (sv : Server) : Server :=
  match context sv with
  | Some ref => mkServer (<[ref := mkContext false]> (objects sv)) None (state sv)
  | None => sv
  end.

(** What [print(f"{prefix}{str(e)}")] does: it prints the line, which
    is written out when the exception carries its text. *)
Definition reported (prefix : string) (e : exn) : Event :=
  match str e with
  | Some msg => EvPrint (prefix +:+ msg)
  | None => EvPrintError prefix e
  end.

Definition print_error (prefix : string) (e : exn) : M unit :=
  w ← get_world;
  put_world (emit (reported prefix e) w).

(** The [except] clause, and the [finally] clause after it. *)
Definition lifespan_except {A} (e : exn) (sv : Server) : result A * Server :=
  let st := (print_error "Error during initialization: " e (state sv)).2 in
  (Raise e, lifespan_finally (mkServer (objects sv) (context sv) st)).

(** [spacetraders_lifespan] up to its [yield]: what entering the
    context manager does, and the reference it yields. *)
Definition lifespan_enter (sv : Server) : result nat * Server :=
  match get_spacetraders_api_key (state sv) with
  | (Ok _, st) =>
      let '(ref, heap) :=
        match context sv with
        | None => (List.length (objects sv), objects sv ++ [mkContext false])
        | Some ref => (ref, objects sv)
        end in
      (Ok ref, mkServer (<[ref := mkContext true]> heap) (Some ref) st)
  | (Raise e, st) => lifespan_except e (mkServer (objects sv) (context sv) st)
  | (Beyond, st) => (Beyond, mkServer (objects sv) (context sv) st)
  end.

(** [spacetraders_lifespan] after its [yield]: leaving the context
    manager, normally or with an exception raised by the server. *)
Definition lifespan_exit (raised : option exn) (sv : Server) : result unit * Server :=
  match raised with
  | None => (Ok tt, lifespan_finally sv)
  | Some e => lifespan_except e sv
  end.

(** [ctx.request_context.lifespan_context] of a call made for the
    lifespan that yielded [ref]. *)
Definition lifespan_context (sv : Server) (ref : nat) : option SpaceTradersContext :=
  objects sv !! ref.

(** The process after the import of [main.py], in a world [w]. *)
Definition imported (w : World) : Server := mkServer [] None (new_client w).2.

(** * Vocabulary of the properties *)

(** ** Observing a call *)

(** The events a computation appends to the trace, and the requests
    among them. *)
Definition new_events {A} (c : M A) (s : State) : list Event :=
  drop (List.length (trace (world s))) (trace (world (c s).2)).

Definition sent (events : list Event) : list Request :=
  omap (fun e => match e with EvRequest r => Some r | _ => None end) events.

Definition requests_sent {A} (c : M A) (s : State) : list Request :=
  sent (new_events c s).

(** The outcome of a call that reaches the network is the reply. *)
Definition of_reply (r : Reply) : result Response :=
  match r with
  | Responds resp => Ok resp
  | Fails e => Raise e
  end.

Ltac conjuncts := repeat match goal with |- _ /\ _ => split end.

(** ** The steps of [_rate_limit] *)

(** The first clock reading of [_rate_limit], the time elapsed since the
    last request, and the suspension that follows from it. *)
Definition first_reading (s : State) : Z := clock (tick (world s)).

Definition elapsed (s : State) : Z := first_reading s - last_request_time (self s).

Definition suspension (s : State) : list Event :=
  if elapsed s <? min_interval then [EvSleep (min_interval - elapsed s)] else [].

(** The world after the suspension, and the second clock reading. *)
Definition after_suspension (s : State) : World :=
  let w := emit (EvNow (first_reading s)) (tick (world s)) in
  if elapsed s <? min_interval
  then tick (advance (min_interval - elapsed s) (emit (EvSleep (min_interval - elapsed s)) w))
  else w.

Definition second_reading (s : State) : Z := clock (tick (after_suspension s)).

(** Time does not go backwards while the program runs. *)
Definition monotone (w : World) : Prop := Forall (fun d => 0 <= d) (lag w).

(** ** The request of a call *)

(** An empty string counts as absent, as it does for Python's [if]. *)
Definition nonempty (o : option string) : option string :=
  if truthy o then o else None.

(** The precedence as the specification words it: the account
    credential when it is asked for, else the stored token of the
    identity, else none. *)
Definition resolve_credential (c : SpaceTradersClient) (agent_symbol : option string)
    (use_account_token : bool) : option string :=
  if use_account_token then nonempty (account_token c)
  else nonempty (sym ← nonempty agent_symbol; tokens c !! sym).

Definition with_credential (credential : option string) (headers : gmap string string)
    : gmap string string :=
  match credential with
  | Some tok => <["Authorization" := "Bearer " +:+ tok]> headers
  | None => headers
  end.

Definition caller_headers (kwargs : Kwargs) : gmap string string :=
  default ∅ (kw_headers kwargs).

Definition url_of (c : SpaceTradersClient) (endpoint : string) : string :=
  base_url c +:+ "/" +:+ lstrip_slash endpoint.

(** The request that [make_request] builds. *)
Definition request_of (c : SpaceTradersClient) (method endpoint : string)
    (agent_symbol : option string) (use_account_token : bool) (kwargs : Kwargs) : Request :=
  mkRequest method (url_of c endpoint)
    (with_credential (resolve_credential c agent_symbol use_account_token)
       (<["Content-Type" := "application/json"]> (caller_headers kwargs)))
    (kw_others kwargs).

(** The precondition on the account credential fails. *)
Definition refused (c : SpaceTradersClient) (use_account_token : bool) : bool :=
  use_account_token && negb (truthy (account_token c)).

(** ** Sample states *)

Definition PRODUCTION : string := "https://api.spacetraders.io/v2".

Definition answers (status : Z) (body : string) : Request -> Reply :=
  fun _ => Responds (mkResponse status body).

Definition unreachable : Request -> Reply :=
  fun _ => Fails (ConnectionError "Connection refused").

(** A world at time 1 s, where clock actions take 250, 40 and 10
    microseconds, with no token file. *)
Definition sample_world (key : option string) (api : Request -> Reply) : World :=
  mkWorld 1000000 [250; 40; 10] ∅ key api [].

(** A client that sent its last request at 0.9 s. *)
Definition sample_state (stored : gmap string string) (key : option string)
    (api : Request -> Reply) : State :=
  mkState (mkClient PRODUCTION stored 900000 key) (sample_world key api).

Definition alpha_state : State :=
  sample_state {["ALPHA" := "tok123"]} (Some "account-key") (answers 200 "{}").

Definition keyless_state : State :=
  sample_state {["ALPHA" := "tok123"]} None (answers 200 "{}").

Definition offline_state : State :=
  sample_state {["ALPHA" := "tok123"]} (Some "account-key") unreachable.

(** Headers of a caller that sets [Authorization] and [Content-Type]
    itself. *)
Definition forged : Kwargs :=
  mkKwargs (Some {["Authorization" := "Bearer forged"; "Content-Type" := "text/plain";
                   "X-Trace" := "1"]}) ∅.

(** Worlds whose token file is not valid JSON, or cannot be opened. *)
Definition corrupt_world : World :=
  mkWorld 1000000 [] {[TOKENS_FILE := Readable "{oops"]} (Some "account-key")
    (answers 200 "{}") [].

Definition locked_world : World :=
  mkWorld 1000000 [] {[TOKENS_FILE := Locked]} (Some "account-key") (answers 200 "{}") [].

(** Replies of the remote end to a registration, and the text of the
    tool call. *)
Definition CREATED : string :=
  json.text "{'data':{'token':'tok123','agent':{'symbol':'ALPHA','startingFaction':'COSMIC'}}}".

Definition CLAIMED : string :=
  json.text "{'error':{'message':'Agent symbol has already been claimed.','code':4111}}".

Definition REGISTER : string := "Register with callsign: ALPHA and faction: COSMIC".

Definition fresh_state (api : Request -> Reply) : State :=
  sample_state ∅ (Some "account-key") api.

(** ** The credential store *)

(** The items of a token mapping as the decoder returns them. *)
Definition as_values (items : list (string * string)) : list (string * json.value) :=
  map (fun kv => (kv.1, json.Str kv.2)) items.

(** The state after [_save_tokens], when the token file can be written. *)
Definition saved (s : State) : State :=
  let content := json.dumps (Some 2%nat) (map_to_list (tokens (self s))) in
  mkState (self s)
    (emit (EvWrite TOKENS_FILE content)
       (set_fs (<[TOKENS_FILE := Readable content]> (fs (world s))) (world s))).

(** The credential store: the tokens in memory and the files. *)
Definition store_of (s : State) : gmap string string * gmap string File :=
  (tokens (self s), fs (world s)).

(** [keeps c s]: running [c] from [s] leaves the store as it is. *)
Definition keeps {A} (c : M A) (s : State) : Prop := store_of (c s).2 = store_of s.

(** ** Registration *)

(** The request of a registration, and the state once it is sent. *)
Definition registration_request (s : State) (callsign faction : string) : Request :=
  request_of (self s) "POST" "register" None true (registration_kwargs callsign faction).

Definition requested (s : State) (callsign faction : string) : State :=
  mkState (self (_rate_limit s).2)
    (emit (EvRequest (registration_request s callsign faction)) (world (_rate_limit s).2)).

(** The [except] clause of [Register_Users]. *)
Definition on_error (e : exn) : M Answer :=
  ret (TextAndError "Error during registration: " e).

(** ** Further vocabulary *)

(** The event is the writing of a file. *)
Definition is_write (e : Event) : bool :=
  match e with
  | EvWrite _ _ => true
  | _ => false
  end.

(** [n] slashes. *)
Fixpoint slashes (n : nat) : string :=
  match n with
  | O => ""
  | S n' => String "/" (slashes n')
  end.

(** A client in a world whose token file cannot be opened. *)
Definition locked_state : State :=
  mkState (mkClient PRODUCTION {["ALPHA" := "tok123"]} 900000 (Some "account-key"))
    locked_world.

(** The line that [__init__] prints without a key. *)
Definition WARNING : string :=
  "Warning: SPACETRADERS_API_KEY not found in environment variables".

(** The state of the object that [__init__] is run on. *)
Definition blank (w : World) : State := mkState (mkClient "" ∅ 0 None) w.

(** A world without [SPACETRADERS_API_KEY]. *)
Definition keyless_world : World := sample_world None (answers 200 "{}").

(** The context is there and says it is initialized. *)
Definition ready (ctx : option SpaceTradersContext) : bool :=
  match ctx with
  | Some c => initialized c
  | None => false
  end.

(** [silent c s]: run from [s], [c] only appends to the trace, and no
    request. *)
Definition silent {A} (c : M A) (s : State) : Prop :=
  exists l, trace (world (c s).2) = trace (world s) ++ l /\ sent l = [].

(** A text whose callsign has a double quote and a backslash. *)
Definition QUOTED : string := json.text "Register with callsign: A'B\C and faction: VOID".

(** The shape of a tool: the check, then in a [try] block one request
    and what is made of the response, and a handler. *)
Definition tool (ctx : option SpaceTradersContext) (method endpoint : string)
    (agent_symbol : option string) (use_account_token : bool) (kwargs : Kwargs)
    (reply : Response -> M Answer) (handler : exn -> M Answer) : M Answer :=
  bind (check_initialization ctx)
    (fun _ => try_except
                (bind (make_request method endpoint agent_symbol use_account_token kwargs)
                      reply)
                handler).

(** The state once [req] is sent. *)
Definition dispatched (s : State) (req : Request) : State :=
  mkState (self (_rate_limit s).2) (emit (EvRequest req) (world (_rate_limit s).2)).

(** A handler that answers with the exception. *)
Definition answering (handler : exn -> M Answer) : Prop :=
  exists prefix, forall e s, handler e s = (Ok (TextAndError prefix e), s).

(** What is made of a response reads only: it leaves the state as it
    is. *)
Definition reads (reply : Response -> M Answer) : Prop :=
  forall response s, (reply response s).2 = s.

(** [still c]: [c] leaves every state as it is. *)
Definition still {A} (c : M A) : Prop := forall s, (c s).2 = s.

(** What [View_Agent_Details], [Get_Public_Agent] and
    [Get_Ship_Cooldown] make of the response: with these the three
    tools are of the shape of [tool]. *)
Definition view_agent_reply (response : Response) : M Answer :=
  if status_code response =? 200 then agent_details response
  else failure "Failed to get agent details" response.

Definition public_agent_reply (response : Response) : M Answer :=
  if status_code response =? 200 then agent_details response
  else failure "Failed to get public agent details" response.

Definition cooldown_reply (response : Response) : M Answer :=
  if status_code response =? 204 then ret (Text "No cooldown")
  else if status_code response =? 200 then
    body ← response_json response;
    cooldown ← dict_get_default body "data" (json.Obj []);
    shipSymbol ← dict_get cooldown "shipSymbol";
    totalSeconds ← dict_get cooldown "totalSeconds";
    remainingSeconds ← dict_get cooldown "remainingSeconds";
    expiration ← dict_get cooldown "expiration";
    shown ← dumps_result [("shipSymbol", shipSymbol); ("totalSeconds", totalSeconds);
                          ("remainingSeconds", remainingSeconds);
                          ("expiration", expiration)];
    ret (Text shown)
  else failure "Failed to get ship cooldown" response.

(** A tool that is safe to call at any time: it leaves the store as it
    is; without an initialized context it raises [ValueError] from an
    unchanged state, and with one it raises nothing. *)
Definition safe_tool (T : option SpaceTradersContext -> M Answer) : Prop :=
  forall ctx s,
    store_of (T ctx s).2 = store_of s
    /\ (ready ctx = false -> T ctx s = (Raise (ValueError NOT_INITIALIZED), s))
    /\ (ready ctx = true -> forall e, (T ctx s).1 <> Raise e).

(** A state whose remote end answers 204 with an empty body. *)
Definition cooldown_state : State :=
  sample_state {["ALPHA" := "tok123"]} (Some "account-key") (answers 204 "").

(** The value is a JSON object, a [dict] once decoded. *)
Definition is_object (v : json.value) : bool :=
  match v with
  | json.Obj _ => true
  | _ => false
  end.

(** The body of an error reply. *)
Definition NOT_FOUND : string :=
  json.text "{'error':{'message':'Agent not found.','code':404}}".

(** The answer with every field absent. *)
Definition NO_DETAILS : string :=
  String "{" (String json.newline (json.text "  'symbol': null,"))
  +:+ String json.newline (json.text "  'headquarters': null,")
  +:+ String json.newline (json.text "  'credits': null,")
  +:+ String json.newline (json.text "  'startingFaction': null,")
  +:+ String json.newline (json.text "  'shipCount': null")
  +:+ String json.newline "}".

(** The arguments of a call of [make_request]. *)
Record Call := mkCall {
  call_method : string;
  call_endpoint : string;
  call_agent : option string;
  call_account : bool;
  call_kwargs : Kwargs;
}.

Definition dispatch (c : Call) : M Response :=
  make_request (call_method c) (call_endpoint c) (call_agent c) (call_account c)
    (call_kwargs c).

(** The values of [last_request_time] after each call of a run of
    calls, one after the other, whatever the outcome of each. *)
Fixpoint stamps (calls : list Call) (s : State) : list Z :=
  match calls with
  | [] => []
  | c :: rest =>
      let s' := (dispatch c s).2 in
      last_request_time (self s') :: stamps rest s'
  end.

(** Every time of the list is at least [min_interval] after the one
    before it, the first one after [previous]. *)
Fixpoint spaced (previous : Z) (times : list Z) : Prop :=
  match times with
  | [] => True
  | t :: rest => previous + min_interval <= t /\ spaced t rest
  end.

(** * Properties *)

(** ** What a call does to the world *)

Lemma new_events_app {A} (c : M A) (s : State) (l : list Event) :
  trace (world (c s).2) = trace (world s) ++ l -> new_events c s = l.
Proof.
  intros H. unfold new_events. rewrite H. apply drop_app_length.
Qed.

Lemma requests_request_run (r : Request) (s : State) :
  requests_request r s =
    (of_reply (remote (world s) r), mkState (self s) (emit (EvRequest r) (world s))).
Proof.
  unfold requests_request, mbind, M_bind, bind, get_world, put_world. simpl.
  destruct (remote (world s) r); reflexivity.
Qed.

(** *** The rate limiter *)

Lemma rate_limit_run (s : State) :
  _rate_limit s =
    (Ok tt, mkState (set_last_request_time (second_reading s) (self s))
                    (emit (EvNow (second_reading s)) (tick (after_suspension s)))).
Proof.
  unfold _rate_limit, second_reading, after_suspension, elapsed, first_reading.
  unfold mbind, M_bind, bind, datetime_now, time_sleep, get_self, put_self,
    get_world, put_world, mret, M_ret, ret. simpl.
  destruct (clock (tick (world s)) - last_request_time (self s) <? min_interval);
    reflexivity.
Qed.

Lemma trace_tick (w : World) : trace (tick w) = trace w.
Proof. unfold tick. destruct (lag w); reflexivity. Qed.

Lemma rate_limit_trace (s : State) :
  trace (world (_rate_limit s).2) =
    trace (world s) ++ EvNow (first_reading s) :: suspension s ++ [EvNow (second_reading s)].
Proof.
  rewrite rate_limit_run. simpl. rewrite trace_tick.
  unfold after_suspension, suspension.
  destruct (elapsed s <? min_interval); simpl.
  - rewrite trace_tick. simpl. rewrite trace_tick.
    rewrite <- !app_assoc. reflexivity.
  - rewrite trace_tick. rewrite <- !app_assoc. reflexivity.
Qed.

Lemma sent_rate_limit (s : State) :
  sent (EvNow (first_reading s) :: suspension s ++ [EvNow (second_reading s)]) = [].
Proof. unfold suspension. destruct (elapsed s <? min_interval); reflexivity. Qed.

(** *** The dispatcher *)

Lemma truthy_nonempty (o : option string) :
  truthy o = true -> nonempty o = Some (default "" o).
Proof.
  unfold nonempty. intros H. rewrite H. destruct o; [reflexivity | discriminate].
Qed.

Lemma falsy_nonempty (o : option string) : truthy o = false -> nonempty o = None.
Proof. unfold nonempty. intros ->. reflexivity. Qed.

Lemma make_request_run (method endpoint : string) (agent_symbol : option string)
    (use_account_token : bool) (kwargs : Kwargs) (s : State) :
  make_request method endpoint agent_symbol use_account_token kwargs s =
    if refused (self s) use_account_token
    then (Raise (ValueError MISSING_KEY), (_rate_limit s).2)
    else requests_request
           (request_of (self s) method endpoint agent_symbol use_account_token kwargs)
           (_rate_limit s).2.
Proof.
  unfold make_request, mbind, M_bind. unfold bind at 1. rewrite rate_limit_run.
  cbn [fst snd]. unfold bind at 1, get_self at 1. cbn [self world].
  unfold refused, request_of, resolve_credential, url_of, caller_headers.
  unfold set_last_request_time. cbn [base_url tokens account_token].
  destruct use_account_token; cbn [andb].
  - destruct (truthy (account_token (self s))) eqn:Hacct; cbn [negb].
    + rewrite (truthy_nonempty _ Hacct). reflexivity.
    + reflexivity.
  - destruct (truthy agent_symbol) eqn:Hsym.
    + rewrite (truthy_nonempty _ Hsym). cbn [mbind option_bind].
      unfold get_token, mbind, M_bind, bind, get_self, mret, M_ret, ret.
      cbn [self tokens fst snd].
      destruct (truthy (tokens (self s) !! default "" agent_symbol)) eqn:Htok.
      * rewrite (truthy_nonempty _ Htok). reflexivity.
      * rewrite (falsy_nonempty _ Htok). reflexivity.
    + rewrite (falsy_nonempty _ Hsym). reflexivity.
Qed.

Lemma remote_tick (w : World) : remote (tick w) = remote w.
Proof. unfold tick. destruct (lag w); reflexivity. Qed.

Lemma rate_limit_remote (s : State) : remote (world (_rate_limit s).2) = remote (world s).
Proof.
  rewrite rate_limit_run. simpl. rewrite remote_tick.
  unfold after_suspension. destruct (elapsed s <? min_interval); simpl.
  - rewrite remote_tick. simpl. apply remote_tick.
  - apply remote_tick.
Qed.

Lemma rate_limit_events (s : State) :
  new_events _rate_limit s =
    EvNow (first_reading s) :: suspension s ++ [EvNow (second_reading s)].
Proof. apply new_events_app, rate_limit_trace. Qed.

Lemma sent_app (l k : list Event) : sent (l ++ k) = sent l ++ sent k.
Proof. unfold sent. apply omap_app. Qed.

(** Every call of [make_request] runs [_rate_limit] first; then it is
    refused, or it sends the request and the reply is its outcome. *)
Lemma make_request_events (method endpoint : string) (agent_symbol : option string)
    (use_account_token : bool) (kwargs : Kwargs) (s : State) :
  new_events (make_request method endpoint agent_symbol use_account_token kwargs) s =
    new_events _rate_limit s ++
    (if refused (self s) use_account_token then []
     else [EvRequest (request_of (self s) method endpoint agent_symbol use_account_token kwargs)]).
Proof.
  rewrite rate_limit_events. apply new_events_app.
  rewrite make_request_run.
  destruct (refused (self s) use_account_token).
  - cbn [snd]. rewrite rate_limit_trace, app_nil_r. reflexivity.
  - rewrite requests_request_run. cbn [snd world emit trace].
    rewrite rate_limit_trace, <- app_assoc. reflexivity.
Qed.

Lemma make_request_sent (method endpoint : string) (agent_symbol : option string)
    (use_account_token : bool) (kwargs : Kwargs) (s : State) :
  requests_sent (make_request method endpoint agent_symbol use_account_token kwargs) s =
    if refused (self s) use_account_token then []
    else [request_of (self s) method endpoint agent_symbol use_account_token kwargs].
Proof.
  unfold requests_sent. rewrite make_request_events, sent_app, rate_limit_events.
  rewrite sent_rate_limit.
  destruct (refused (self s) use_account_token); reflexivity.
Qed.

Lemma make_request_outcome (method endpoint : string) (agent_symbol : option string)
    (use_account_token : bool) (kwargs : Kwargs) (s : State) :
  (make_request method endpoint agent_symbol use_account_token kwargs s).1 =
    if refused (self s) use_account_token then Raise (ValueError MISSING_KEY)
    else of_reply (remote (world s)
           (request_of (self s) method endpoint agent_symbol use_account_token kwargs)).
Proof.
  rewrite make_request_run.
  destruct (refused (self s) use_account_token); [reflexivity |].
  rewrite requests_request_run. cbn [fst]. rewrite rate_limit_remote. reflexivity.
Qed.

Lemma make_request_self (method endpoint : string) (agent_symbol : option string)
    (use_account_token : bool) (kwargs : Kwargs) (s : State) :
  self (make_request method endpoint agent_symbol use_account_token kwargs s).2 =
    self (_rate_limit s).2.
Proof.
  rewrite make_request_run.
  destruct (refused (self s) use_account_token); [reflexivity |].
  rewrite requests_request_run. reflexivity.
Qed.

(** ** The rate limiter *)

(** C4. [_rate_limit] reads the clock, and when the time elapsed since
    [last_request_time] is below [min_interval] (one period divided by
    the requests allowed in it) it sleeps for exactly [min_interval]
    minus the elapsed time, and not at all otherwise; then it reads the
    clock again and stores that reading, the current time, in
    [last_request_time]. It returns normally, changes nothing else of
    the client, and performs no other action. *)
Theorem rate_limit_acquire (s : State) :
  let s' := (_rate_limit s).2 in
  (_rate_limit s).1 = Ok tt
  /\ new_events _rate_limit s =
       EvNow (first_reading s)
       :: (if first_reading s - last_request_time (self s) <? min_interval
           then [EvSleep (min_interval - (first_reading s - last_request_time (self s)))]
           else [])
       ++ [EvNow (clock (world s'))]
  /\ self s' = set_last_request_time (clock (world s')) (self s)
  /\ min_interval * RATE_LIMIT_REQUESTS = RATE_LIMIT_PERIOD * 1000000
  /\ fs (world s') = fs (world s).
Proof.
  cbn zeta. rewrite rate_limit_events. rewrite rate_limit_run. cbn [fst snd self world].
  assert (Hclock : forall w e, clock (emit e w) = clock w) by reflexivity.
  rewrite Hclock. fold (second_reading s).
  repeat split.
  unfold emit, after_suspension. cbn [fs].
  assert (Hfs : forall w, fs (tick w) = fs w).
  { intros w. unfold tick. destruct (lag w); reflexivity. }
  rewrite Hfs.
  destruct (elapsed s <? min_interval);
    repeat first [rewrite Hfs | progress (unfold advance, emit; cbn [fs])]; reflexivity.
Qed.

(** ** The dispatcher *)

(** C1. The [Authorization] header of the request that a call sends
    follows the precedence: with [use_account_token] it is the bearer of
    the account token, whatever the identity and its stored token;
    without it, the bearer of the identity's stored token; and with no
    credential resolved the header is left as the caller gave it. *)
Theorem credential_precedence (s : State) (method endpoint : string)
    (agent_symbol : option string) (use_account_token : bool) (kwargs : Kwargs)
    (req : Request) :
  requests_sent (make_request method endpoint agent_symbol use_account_token kwargs) s = [req] ->
  req_headers req !! "Authorization" =
    match resolve_credential (self s) agent_symbol use_account_token with
    | Some tok => Some ("Bearer " +:+ tok)
    | None => caller_headers kwargs !! "Authorization"
    end
  /\ (use_account_token = true ->
      exists tok, account_token (self s) = Some tok
        /\ req_headers req !! "Authorization" = Some ("Bearer " +:+ tok)).
Proof.
  rewrite make_request_sent. unfold refused.
  destruct use_account_token; cbn [andb].
  - destruct (truthy (account_token (self s))) eqn:Hacct; cbn [negb]; [| discriminate].
    intros [= <-]. unfold request_of, resolve_credential. cbn [req_headers].
    rewrite (truthy_nonempty _ Hacct). cbn [with_credential].
    rewrite lookup_insert_eq. split; [reflexivity |]. intros _.
    destruct (account_token (self s)) as [tok |]; [| discriminate].
    exists tok. split; reflexivity.
  - intros [= <-]. split; [| discriminate].
    unfold request_of. cbn [req_headers].
    destruct (resolve_credential (self s) agent_symbol false) as [tok |];
      cbn [with_credential].
    + apply lookup_insert_eq.
    + rewrite lookup_insert_ne by discriminate. reflexivity.
Qed.

Lemma credential_precedence_witness :
  requests_sent (make_request "GET" "my/agent" (Some "ALPHA") true no_kwargs) alpha_state
    = [request_of (self alpha_state) "GET" "my/agent" (Some "ALPHA") true no_kwargs]
  /\ tokens (self alpha_state) !! "ALPHA" = Some "tok123"
  /\ req_headers (request_of (self alpha_state) "GET" "my/agent" (Some "ALPHA") true no_kwargs)
       !! "Authorization" = Some "Bearer account-key".
Proof.
  assert (H : requests_sent (make_request "GET" "my/agent" (Some "ALPHA") true no_kwargs)
                alpha_state
              = [request_of (self alpha_state) "GET" "my/agent" (Some "ALPHA") true no_kwargs])
    by (vm_compute; reflexivity).
  split; [exact H |]. split; [vm_compute; reflexivity |].
  exact (proj1 (credential_precedence alpha_state "GET" "my/agent" (Some "ALPHA") true
                  no_kwargs _ H)).
Defined.

(** C2, as the specification states it, fails: for an identity without
    a stored token the request still carries an [Authorization] header
    when the caller passed one in [headers]. *)
Lemma unauthenticated_fallback_counterexample :
  tokens (self alpha_state) !! "GHOST" = None
  /\ exists req,
       requests_sent (make_request "GET" "my/agent" (Some "GHOST") false forged) alpha_state
         = [req]
       /\ req_headers req !! "Authorization" = Some "Bearer forged".
Proof.
  split; [vm_compute; reflexivity |].
  exists (request_of (self alpha_state) "GET" "my/agent" (Some "GHOST") false forged).
  split; vm_compute; reflexivity.
Qed.

(** C2, amended. A call for an identity without a stored token, and
    without [use_account_token], raises no error of its own: it sends
    one request, whose [Authorization] header is the one the caller
    passed in [headers] and is absent when the caller passed none, and
    the outcome of the call is the reply of the remote end. *)
Theorem unauthenticated_fallback (s : State) (method endpoint sym : string)
    (kwargs : Kwargs) :
  tokens (self s) !! sym = None ->
  exists req,
    requests_sent (make_request method endpoint (Some sym) false kwargs) s = [req]
    /\ req_headers req !! "Authorization" = caller_headers kwargs !! "Authorization"
    /\ (caller_headers kwargs !! "Authorization" = None ->
        req_headers req !! "Authorization" = None)
    /\ (make_request method endpoint (Some sym) false kwargs s).1
         = of_reply (remote (world s) req).
Proof.
  intros Hnone.
  exists (request_of (self s) method endpoint (Some sym) false kwargs).
  rewrite make_request_sent, make_request_outcome. cbn [refused andb].
  assert (Hres : resolve_credential (self s) (Some sym) false = None).
  { unfold resolve_credential, nonempty.
    destruct (truthy (Some sym)); cbn [mbind option_bind]; [| reflexivity].
    rewrite Hnone. reflexivity. }
  assert (Hauth : req_headers (request_of (self s) method endpoint (Some sym) false kwargs)
                    !! "Authorization" = caller_headers kwargs !! "Authorization").
  { unfold request_of. cbn [req_headers]. rewrite Hres. cbn [with_credential].
    rewrite lookup_insert_ne by discriminate. reflexivity. }
  conjuncts; [reflexivity | exact Hauth | intros H; rewrite Hauth; exact H | reflexivity].
Qed.

Lemma unauthenticated_fallback_witness :
  tokens (self alpha_state) !! "GHOST" = None
  /\ exists req,
       requests_sent (make_request "GET" "my/agent" (Some "GHOST") false no_kwargs) alpha_state
         = [req]
       /\ req_headers req !! "Authorization" = None
       /\ (make_request "GET" "my/agent" (Some "GHOST") false no_kwargs alpha_state).1
            = Ok (mkResponse 200 "{}").
Proof.
  assert (H : tokens (self alpha_state) !! "GHOST" = None) by (vm_compute; reflexivity).
  split; [exact H |].
  destruct (unauthenticated_fallback alpha_state "GET" "my/agent" "GHOST" no_kwargs H)
    as (req & Hsent & _ & Hnone & Hout).
  exists req. split; [exact Hsent |]. split; [apply Hnone; reflexivity | exact Hout].
Defined.

(** C3. With [use_account_token] and no account token configured
    ([None] or the empty string), the call raises [ValueError] and no
    request is sent. *)
Theorem missing_account_credential (s : State) (method endpoint : string)
    (agent_symbol : option string) (kwargs : Kwargs) :
  truthy (account_token (self s)) = false ->
  (make_request method endpoint agent_symbol true kwargs s).1 = Raise (ValueError MISSING_KEY)
  /\ requests_sent (make_request method endpoint agent_symbol true kwargs) s = [].
Proof.
  intros Hacct. rewrite make_request_outcome, make_request_sent.
  unfold refused. rewrite Hacct. split; reflexivity.
Qed.

Lemma missing_account_credential_witness :
  (make_request "POST" "register" (Some "ALPHA") true no_kwargs keyless_state).1
    = Raise (ValueError MISSING_KEY)
  /\ requests_sent (make_request "POST" "register" (Some "ALPHA") true no_kwargs) keyless_state
       = [].
Proof.
  apply (missing_account_credential keyless_state "POST" "register" (Some "ALPHA") no_kwargs).
  reflexivity.
Defined.

(** C5, as the specification states it, fails: a call with
    [use_account_token] and no account token makes no network call (and
    still stamps [last_request_time]). *)
Lemma one_network_call_counterexample :
  requests_sent (make_request "POST" "register" None true no_kwargs) keyless_state = []
  /\ last_request_time (self keyless_state) = 900000
  /\ last_request_time
       (self (make_request "POST" "register" None true no_kwargs keyless_state).2) = 1400050.
Proof. repeat split; vm_compute; reflexivity. Qed.

(** C5, amended. Every call of [make_request] runs [_rate_limit] once,
    first: the client it leaves is the one [_rate_limit] leaves, with
    [last_request_time] stamped, whatever the outcome. After it the call
    sends exactly one request, except when the account credential is
    asked for and missing, where it sends none. When the remote end
    cannot be reached the call raises and the stamp stays. *)
Theorem dispatch_consumes_one_slot (s : State) (method endpoint : string)
    (agent_symbol : option string) (use_account_token : bool) (kwargs : Kwargs) :
  let call := make_request method endpoint agent_symbol use_account_token kwargs in
  self (call s).2 = self (_rate_limit s).2
  /\ self (call s).2 = set_last_request_time (second_reading s) (self s)
  /\ new_events call s = new_events _rate_limit s ++ map EvRequest (requests_sent call s)
  /\ List.length (requests_sent call s)
       = (if refused (self s) use_account_token then 0 else 1)%nat
  /\ (forall req e, requests_sent call s = [req] -> remote (world s) req = Fails e ->
        (call s).1 = Raise e /\ last_request_time (self (call s).2) = second_reading s).
Proof.
  cbn zeta. rewrite make_request_self, make_request_events, make_request_sent,
    make_request_outcome.
  rewrite rate_limit_run. cbn [snd self].
  destruct (refused (self s) use_account_token).
  - conjuncts; try reflexivity. intros req e [=].
  - conjuncts; try reflexivity. intros req e [= <-] Hfail. rewrite Hfail. split; reflexivity.
Qed.

Lemma dispatch_consumes_one_slot_witness :
  (make_request "GET" "my/agent" (Some "ALPHA") false no_kwargs offline_state).1
    = Raise (ConnectionError "Connection refused")
  /\ last_request_time (self offline_state) = 900000
  /\ last_request_time
       (self (make_request "GET" "my/agent" (Some "ALPHA") false no_kwargs offline_state).2)
     = 1400050.
Proof.
  destruct (dispatch_consumes_one_slot offline_state "GET" "my/agent" (Some "ALPHA") false
              no_kwargs) as (_ & _ & _ & _ & Hfail).
  destruct (Hfail (request_of (self offline_state) "GET" "my/agent" (Some "ALPHA") false
                     no_kwargs)
                  (ConnectionError "Connection refused")
                  ltac:(vm_compute; reflexivity) eq_refl) as [Hout Hstamp].
  split; [exact Hout |]. split; [reflexivity | exact Hstamp].
Defined.

(** C10. Every call that is not refused for the missing account token
    sends one request, and that request, whatever the method and with
    or without a body, has [Content-Type: application/json], also when
    the caller passed another [Content-Type]; every header of the
    caller other than [Content-Type] and [Authorization] is forwarded
    as it is, [Authorization] too unless a credential was resolved, and
    so are the method and the other keyword arguments. *)
Theorem content_type_always_json (s : State) (method endpoint : string)
    (agent_symbol : option string) (use_account_token : bool) (kwargs : Kwargs) :
  refused (self s) use_account_token = false ->
  exists req : Request,
    requests_sent (make_request method endpoint agent_symbol use_account_token kwargs) s = [req]
    /\ req_headers req !! "Content-Type" = Some "application/json"
    /\ (forall name, name <> "Content-Type" -> name <> "Authorization" ->
          req_headers req !! name = caller_headers kwargs !! name)
    /\ (resolve_credential (self s) agent_symbol use_account_token = None ->
          req_headers req !! "Authorization" = caller_headers kwargs !! "Authorization")
    /\ req_method req = method
    /\ req_kwargs req = kw_others kwargs.
Proof.
  intros Hsent. rewrite make_request_sent, Hsent.
  exists (request_of (self s) method endpoint agent_symbol use_account_token kwargs).
  split; [reflexivity |].
  unfold request_of. cbn [req_headers req_method req_kwargs].
  destruct (resolve_credential (self s) agent_symbol use_account_token) as [tok |];
    cbn [with_credential].
  - conjuncts; try reflexivity.
    + rewrite lookup_insert_ne by discriminate. apply lookup_insert_eq.
    + intros name Hct Hauth. rewrite !lookup_insert_ne by congruence. reflexivity.
    + discriminate.
  - conjuncts; try reflexivity.
    + apply lookup_insert_eq.
    + intros name Hct Hauth. rewrite lookup_insert_ne by congruence. reflexivity.
    + intros _. rewrite lookup_insert_ne by discriminate. reflexivity.
Qed.

Lemma content_type_always_json_witness :
  caller_headers forged !! "Content-Type" = Some "text/plain"
  /\ exists req : Request,
       requests_sent (make_request "GET" "my/agent" (Some "ALPHA") false forged) alpha_state
         = [req]
       /\ req_headers req !! "Content-Type" = Some "application/json"
       /\ req_headers req !! "X-Trace" = Some "1".
Proof.
  split; [vm_compute; reflexivity |].
  destruct (content_type_always_json alpha_state "GET" "my/agent" (Some "ALPHA") false
              forged eq_refl) as (req & Hsent & Hct & Hother & _).
  exists req. split; [exact Hsent |]. split; [exact Hct |].
  rewrite Hother by discriminate. vm_compute. reflexivity.
Defined.

(** ** The [json] codec *)

Lemma scanstring_escape (a : ascii) (k : string) (r : json.outcome (string * string)) :
  json.scanstring k = r -> json.scanstring (json.escape_char a +:+ k) = json.push a r.
Proof.
  intros <-.
  destruct a as [b0 b1 b2 b3 b4 b5 b6 b7].
  destruct b0, b1, b2, b3, b4, b5, b6, b7; reflexivity.
Qed.

Lemma scanstring_put_chars (s rest : string) :
  json.scanstring (json.put_chars s (String json.dquote rest)) = json.Done (s, rest).
Proof.
  induction s as [| a s IH]; [reflexivity |].
  cbn [json.put_chars]. rewrite (scanstring_escape a _ _ IH). reflexivity.
Qed.

Lemma scan_once_put_string (fuel depth : nat) (s rest : string) :
  json.scan_once (S fuel) depth (json.put_string s rest) = json.Done (json.Str s, rest).
Proof.
  unfold json.put_string. cbn [json.scan_once].
  change (json.dquote =? json.dquote)%char with true. cbn iota.
  rewrite scanstring_put_chars. reflexivity.
Qed.

Lemma put_items_cons (sep : string) (kv : string * string) (items : list (string * string))
    (k : string) :
  json.put_items sep (kv :: items) k =
    json.put_item kv (match items with [] => k | _ :: _ => sep +:+ json.put_items sep items k end).
Proof. destruct items; reflexivity. Qed.

Lemma skip_ws_colon (x : string) :
  json.skip_ws (": " +:+ x) = String ":" (String " " x).
Proof. reflexivity. Qed.

Lemma skip_ws_space (s x : string) :
  json.skip_ws (String " " (json.put_string s x)) = json.put_string s x.
Proof. reflexivity. Qed.

Lemma skip_ws_comma (gap x : string) :
  json.skip_ws (String "," gap +:+ x) = String "," (gap +:+ x).
Proof. reflexivity. Qed.

(** The loop of [JSONObject] reads back the items that [put_items]
    wrote, when the separator is a comma followed by white space and
    the text after the items is white space followed by a closing
    brace. *)
Lemma object_loop_put_items (gap closing rest : string) :
  (forall x, json.skip_ws (gap +:+ String json.dquote x) = String json.dquote x) ->
  json.skip_ws closing = String "}" rest ->
  forall (items : list (string * string)) (kv : string * string) (fuel depth : nat)
         (acc : list (string * json.value)),
    (List.length items + 1 < fuel)%nat ->
    json.object_loop fuel depth
      (json.put_chars kv.1 (String json.dquote (": " +:+ json.put_string kv.2
         (match items with
          | [] => closing
          | _ :: _ => String "," gap +:+ json.put_items (String "," gap) items closing
          end)))) acc
    = json.Done (json.Obj (acc ++ as_values (kv :: items)), rest).
Proof.
  intros Hgap Hclosing.
  induction items as [| kv' items IH]; intros kv fuel depth acc Hfuel.
  - destruct fuel as [| fuel]; [cbn in Hfuel; lia |].
    cbn [json.object_loop]. rewrite scanstring_put_chars, skip_ws_colon.
    cbn iota. change (negb (":" =? ":")%char) with false. cbn iota.
    destruct fuel as [| fuel]; [cbn in Hfuel; lia |].
    rewrite skip_ws_space, scan_once_put_string, Hclosing.
    reflexivity.
  - destruct fuel as [| fuel]; [cbn in Hfuel; lia |].
    cbn [json.object_loop]. rewrite scanstring_put_chars, skip_ws_colon.
    cbn iota. change (negb (":" =? ":")%char) with false. cbn iota.
    destruct fuel as [| fuel]; [cbn in Hfuel; lia |].
    rewrite skip_ws_space, scan_once_put_string, skip_ws_comma.
    cbn iota. change ("," =? "}")%char with false. change ("," =? ",")%char with true.
    cbn iota.
    rewrite put_items_cons. unfold json.put_item at 1, json.put_string at 1.
    rewrite Hgap. change (json.dquote =? json.dquote)%char with true. cbn iota.
    rewrite IH by (cbn [List.length] in Hfuel; lia).
    rewrite <- app_assoc. reflexivity.
Qed.

Lemma skip_ws_spaces (n : nat) (x : string) :
  json.skip_ws (json.spaces n +:+ String json.dquote x) = String json.dquote x.
Proof. induction n as [| n IH]; [reflexivity | exact IH]. Qed.

Lemma length_append (a b : string) :
  String.length (a +:+ b) = (String.length a + String.length b)%nat.
Proof.
  induction a as [| c a IH]; [reflexivity |].
  change (String c a +:+ b) with (String c (a +:+ b)).
  cbn [String.length]. rewrite IH. reflexivity.
Qed.

Lemma length_put_chars (s k : string) :
  (String.length k <= String.length (json.put_chars s k))%nat.
Proof.
  induction s as [| c s IH]; [reflexivity |].
  cbn [json.put_chars]. rewrite length_append. lia.
Qed.

Lemma length_put_string (s k : string) :
  (S (String.length k) <= String.length (json.put_string s k))%nat.
Proof.
  unfold json.put_string. cbn [String.length].
  pose proof (length_put_chars s (String json.dquote k)) as H. cbn [String.length] in H. lia.
Qed.

Lemma length_put_items (sep : string) (items : list (string * string)) (k : string) :
  (List.length items + String.length k <= String.length (json.put_items sep items k))%nat.
Proof.
  induction items as [| kv items IH]; [reflexivity |].
  rewrite put_items_cons. unfold json.put_item.
  pose proof (length_put_string kv.1
    (": " +:+ json.put_string kv.2
       (match items with
        | [] => k
        | _ :: _ => sep +:+ json.put_items sep items k
        end))) as H1.
  rewrite length_append in H1.
  pose proof (length_put_string kv.2
    (match items with
     | [] => k
     | _ :: _ => sep +:+ json.put_items sep items k
     end)) as H2.
  destruct items as [| kv' items].
  - cbn [List.length] in *. lia.
  - rewrite length_append in H2. cbn [List.length] in *. lia.
Qed.

(** [json.loads] reads back what [json.dumps] wrote. *)
Lemma loads_dumps (indent : option nat) (items : list (string * string)) :
  json.loads (json.dumps indent items) = json.Done (json.Obj (as_values items)).
Proof.
  destruct items as [| kv items]; [reflexivity |].
  unfold json.loads.
  assert (Hloop : forall gap closing text,
    (forall x, json.skip_ws (gap +:+ String json.dquote x) = String json.dquote x) ->
    json.skip_ws closing = String "}" "" ->
    json.skip_ws text = json.put_items (String "," gap) (kv :: items) closing ->
    (List.length (kv :: items) < String.length text)%nat ->
    json.scan_once (S (S (String.length text))) json.max_depth (String "{" text)
      = json.Done (json.Obj (as_values (kv :: items)), "")).
  { intros gap closing text Hgap Hclosing Htext Hlen.
    unfold json.max_depth.
    cbn [json.scan_once]. change ("{" =? json.dquote)%char with false.
    change ("{" =? "{")%char with true. cbn iota. rewrite Htext.
    rewrite put_items_cons. unfold json.put_item at 1, json.put_string at 1.
    change (json.dquote =? "}")%char with false.
    change (json.dquote =? json.dquote)%char with true. cbn iota.
    rewrite (object_loop_put_items gap closing "" Hgap Hclosing)
      by (cbn [List.length] in Hlen; lia).
    reflexivity. }
  destruct indent as [n |]; unfold json.dumps.
  - change (json.skip_ws (String "{" ?x)) with (String "{" x).
    cbn [String.length].
    rewrite (Hloop (String json.newline (json.spaces n)) (String json.newline "}")).
    + reflexivity.
    + intros x. apply skip_ws_spaces.
    + reflexivity.
    + change (json.skip_ws (String json.newline (json.spaces n) +:+ ?x))
        with (json.skip_ws (json.spaces n +:+ x)).
      rewrite put_items_cons. unfold json.put_item at 1, json.put_string at 1.
      rewrite skip_ws_spaces.
      rewrite put_items_cons. reflexivity.
    + rewrite length_append.
      pose proof (length_put_items ("," +:+ String json.newline (json.spaces n))
                    (kv :: items) (String json.newline "}")) as H.
      cbn [String.length] in *. lia.
  - change (json.skip_ws (String "{" ?x)) with (String "{" x).
    cbn [String.length].
    rewrite (Hloop " " "}").
    + reflexivity.
    + reflexivity.
    + reflexivity.
    + rewrite put_items_cons. reflexivity.
    + pose proof (length_put_items ", " (kv :: items) "}") as H.
      cbn [String.length] in *. lia.
Qed.

Lemma as_str_dict_values (items : list (string * string)) (acc : gmap string string) :
  NoDup items.*1 ->
  json.as_str_dict (as_values items) acc = Some (list_to_map items ∪ acc).
Proof.
  revert acc. induction items as [| [k v] items IH]; intros acc Hnodup.
  - cbn. rewrite (left_id_L ∅ (∪)). reflexivity.
  - apply NoDup_cons in Hnodup as [Hfresh Hnodup].
    cbn [as_values map json.as_str_dict fst snd]. fold (as_values items).
    rewrite IH by exact Hnodup. cbn [list_to_map foldr uncurry fst snd].
    rewrite <- insert_union_l, <- insert_union_r; [reflexivity |].
    apply not_elem_of_list_to_map_1. exact Hfresh.
Qed.

(** Decoding the serialisation of a token mapping gives the mapping. *)
Lemma json_load_dumps (indent : option nat) (m : gmap string string) (s : State) :
  json_load (json.dumps indent (map_to_list m)) s = (Ok m, s).
Proof.
  unfold json_load. rewrite loads_dumps.
  rewrite as_str_dict_values by apply NoDup_fst_map_to_list.
  rewrite list_to_map_to_list, (right_id_L ∅ (∪)). reflexivity.
Qed.

(** ** The credential store *)

Lemma path_exists_run (path : string) (s : State) :
  path_exists path s = (Ok (bool_decide (is_Some (fs (world s) !! path))), s).
Proof. reflexivity. Qed.

Lemma load_tokens_run (s : State) :
  _load_tokens s =
    match fs (world s) !! TOKENS_FILE with
    | None => (Ok ∅, s)
    | Some Locked => (Raise PermissionError, s)
    | Some (Readable content) => json_load content s
    end.
Proof.
  unfold _load_tokens, mbind, M_bind, bind. rewrite path_exists_run.
  unfold read_file, mbind, M_bind, bind, get_world.
  destruct (fs (world s) !! TOKENS_FILE) as [[content |] |] eqn:Hfile.
  - rewrite bool_decide_eq_true_2 by eauto. cbn [world]. rewrite Hfile. reflexivity.
  - rewrite bool_decide_eq_true_2 by eauto. cbn [world]. rewrite Hfile. reflexivity.
  - rewrite bool_decide_eq_false_2 by (intros [? ?]; discriminate). reflexivity.
Qed.

Lemma init_load_fails (url : string) (s : State) (e : exn) :
  (_load_tokens (mkState (mkClient url (tokens (self s)) (last_request_time (self s))
                            (account_token (self s))) (world s))).1 = Raise e ->
  (__init__ url s).1 = Raise e.
Proof.
  unfold __init__, mbind, M_bind. unfold bind at 1. unfold get_self at 1.
  unfold bind at 1. unfold put_self at 1. cbn [self world].
  unfold bind at 1.
  destruct (_load_tokens _) as [[loaded | e' |] s']; cbn [fst]; intros [=].
  subst. reflexivity.
Qed.

(** C6. [_load_tokens] returns the empty mapping, with no error, when
    the token file does not exist; when the file exists and cannot be
    read it raises [PermissionError], and when its content is not valid
    JSON it raises [JSONDecodeError], and so does the construction of
    the client: no client with an empty store comes out of a malformed
    file. *)
Theorem load_tokens_missing_or_malformed (s : State) :
  (fs (world s) !! TOKENS_FILE = None -> _load_tokens s = (Ok ∅, s))
  /\ (fs (world s) !! TOKENS_FILE = Some Locked ->
      _load_tokens s = (Raise PermissionError, s)
      /\ (new_client (world s)).1 = Raise PermissionError)
  /\ (forall content,
        fs (world s) !! TOKENS_FILE = Some (Readable content) ->
        json.loads content = json.SyntaxError ->
        _load_tokens s = (Raise JSONDecodeError, s)
        /\ (new_client (world s)).1 = Raise JSONDecodeError).
Proof.
  conjuncts.
  - intros H. rewrite load_tokens_run, H. reflexivity.
  - intros H. split; [rewrite load_tokens_run, H; reflexivity |].
    apply init_load_fails. rewrite load_tokens_run. cbn [world]. rewrite H. reflexivity.
  - intros content H Hbad.
    assert (Hload : forall s0, json_load content s0 = (Raise JSONDecodeError, s0)).
    { intros s0. unfold json_load. rewrite Hbad. reflexivity. }
    split; [rewrite load_tokens_run, H; apply Hload |].
    apply init_load_fails. rewrite load_tokens_run. cbn [world]. rewrite H, Hload.
    reflexivity.
Qed.

Lemma load_tokens_missing_or_malformed_witness :
  _load_tokens alpha_state = (Ok ∅, alpha_state)
  /\ (new_client locked_world).1 = Raise PermissionError
  /\ (new_client corrupt_world).1 = Raise JSONDecodeError.
Proof.
  split; [| split].
  - apply (proj1 (load_tokens_missing_or_malformed alpha_state)). reflexivity.
  - apply (proj1 (proj2 (load_tokens_missing_or_malformed
                           (mkState (mkClient "" ∅ 0 None) locked_world)))).
    reflexivity.
  - apply (proj2 (proj2 (load_tokens_missing_or_malformed
                           (mkState (mkClient "" ∅ 0 None) corrupt_world))) "{oops");
      reflexivity.
Defined.

Lemma save_tokens_run (s : State) :
  fs (world s) !! TOKENS_FILE <> Some Locked ->
  _save_tokens s = (Ok tt, saved s).
Proof.
  intros Hfile.
  unfold _save_tokens, write_file, mbind, M_bind, bind, get_self, get_world. cbn [world self].
  destruct (fs (world s) !! TOKENS_FILE) as [[content |] |]; [reflexivity | | reflexivity].
  contradiction Hfile. reflexivity.
Qed.

Lemma load_saved (s : State) : _load_tokens (saved s) = (Ok (tokens (self s)), saved s).
Proof.
  rewrite load_tokens_run. unfold saved at 1. cbn [world emit set_fs fs].
  rewrite lookup_insert_eq. apply json_load_dumps.
Qed.

(** Whichever client object reads the file that [_save_tokens] wrote,
    it reads the tokens of the client that wrote it. *)
Lemma load_saved_by (c : SpaceTradersClient) (s : State) :
  (_load_tokens (mkState c (world (saved s)))).1 = Ok (tokens (self s)).
Proof.
  rewrite load_tokens_run. unfold saved. cbn [world emit set_fs fs].
  rewrite lookup_insert_eq, json_load_dumps. reflexivity.
Qed.

Lemma store_token_run (agent_symbol token : string) (s : State) :
  store_token agent_symbol token s =
    _save_tokens (mkState (set_tokens (<[agent_symbol := token]> (tokens (self s))) (self s))
                    (world s)).
Proof. reflexivity. Qed.

Lemma save_tokens_self (s : State) : self (_save_tokens s).2 = self s.
Proof.
  unfold _save_tokens, write_file, mbind, M_bind, bind, get_self, get_world. cbn [world self].
  destruct (fs (world s) !! TOKENS_FILE) as [[content |] |]; reflexivity.
Qed.

(** C7. After [store_token id tok], [get_token id] returns [tok]; and
    when the token file can be written, saving the tokens and loading
    the file again gives back the same mapping, also right after a
    [store_token], whichever client object loads it and whatever that
    object holds in memory: the mapping comes back from the file. *)
Theorem credential_round_trip (s : State) (id tok : string) :
  fs (world s) !! TOKENS_FILE <> Some Locked ->
  (get_token id (store_token id tok s).2).1 = Ok (Some tok)
  /\ (_save_tokens s).1 = Ok tt
  /\ (forall c : SpaceTradersClient,
        (_load_tokens (mkState c (world (_save_tokens s).2))).1 = Ok (tokens (self s)))
  /\ (store_token id tok s).1 = Ok tt
  /\ (forall c : SpaceTradersClient,
        (_load_tokens (mkState c (world (store_token id tok s).2))).1
          = Ok (<[id := tok]> (tokens (self s)))).
Proof.
  intros Hfile. rewrite store_token_run.
  rewrite !save_tokens_run by exact Hfile. cbn [fst snd].
  conjuncts; try reflexivity.
  - unfold get_token, mbind, M_bind, bind, get_self, mret, M_ret, ret.
    cbn [fst self saved tokens set_tokens]. rewrite lookup_insert_eq. reflexivity.
  - intros c. apply load_saved_by.
  - intros c. rewrite load_saved_by. reflexivity.
Qed.

Lemma credential_round_trip_witness :
  (get_token "BETA" (store_token "BETA" "tok456" alpha_state).2).1 = Ok (Some "tok456")
  /\ (_load_tokens (mkState (mkClient "" ∅ 0 None) (world (_save_tokens alpha_state).2))).1
       = Ok {["ALPHA" := "tok123"]}
  /\ (_load_tokens (mkState (mkClient "" ∅ 0 None)
                      (world (store_token "BETA" "tok456" alpha_state).2))).1
       = Ok (<["BETA" := "tok456"]> {["ALPHA" := "tok123"]}).
Proof.
  assert (H : fs (world alpha_state) !! TOKENS_FILE <> Some Locked) by discriminate.
  destruct (credential_round_trip alpha_state "BETA" "tok456" H) as (Hget & _ & Hload & _ & Hboth).
  split; [exact Hget |]. split; [exact (Hload _) | exact (Hboth _)].
Defined.

(** ** Registration *)

Lemma keeps_pure {A} (r : result A) (s : State) : keeps (fun s0 => (r, s0)) s.
Proof. reflexivity. Qed.

Lemma keeps_bind {A B} (c : M A) (k : A -> M B) (s : State) :
  keeps c s ->
  (forall a s', c s = (Ok a, s') -> keeps (k a) s') ->
  keeps (bind c k) s.
Proof.
  unfold keeps, bind. intros Hc Hk.
  destruct (c s) as [[a | e |] s'] eqn:Hrun; cbn [snd] in *.
  - rewrite (Hk a s' eq_refl). exact Hc.
  - exact Hc.
  - exact Hc.
Qed.

Lemma keeps_try_except {A} (body : M A) (handler : exn -> M A) (s : State) :
  keeps body s ->
  (forall e s', keeps (handler e) s') ->
  keeps (try_except body handler) s.
Proof.
  unfold keeps, try_except. intros Hbody Hhandler.
  destruct (body s) as [[a | e |] s'] eqn:Hrun; cbn [snd] in *.
  - exact Hbody.
  - rewrite Hhandler. exact Hbody.
  - exact Hbody.
Qed.

Lemma keeps_response_json (r : Response) (s : State) : keeps (response_json r) s.
Proof. unfold response_json. destruct (json.loads (text r)); apply keeps_pure. Qed.

Lemma keeps_dict_get (d : json.value) (key : string) (s : State) : keeps (dict_get d key) s.
Proof. destruct d; apply keeps_pure. Qed.

Lemma keeps_dict_get_default (d : json.value) (key : string) (dflt : json.value) (s : State) :
  keeps (dict_get_default d key dflt) s.
Proof.
  apply keeps_bind; [apply keeps_dict_get |]. intros; apply keeps_pure.
Qed.

Lemma keeps_format_value (v : option json.value) (s : State) : keeps (format_value v) s.
Proof. destruct v as [[| [|] | | | |] |]; apply keeps_pure. Qed.

Lemma fs_tick (w : World) : fs (tick w) = fs w.
Proof. unfold tick. destruct (lag w); reflexivity. Qed.

Lemma keeps_rate_limit (s : State) : keeps _rate_limit s.
Proof.
  unfold keeps, store_of. rewrite rate_limit_run. cbn [snd self world tokens set_last_request_time].
  f_equal. unfold emit. cbn [fs]. rewrite fs_tick.
  unfold after_suspension. destruct (elapsed s <? min_interval).
  - rewrite fs_tick. unfold advance, emit. cbn [fs]. apply fs_tick.
  - unfold emit. cbn [fs]. apply fs_tick.
Qed.

Lemma keeps_make_request (method endpoint : string) (agent_symbol : option string)
    (use_account_token : bool) (kwargs : Kwargs) (s : State) :
  keeps (make_request method endpoint agent_symbol use_account_token kwargs) s.
Proof.
  unfold keeps. rewrite make_request_run.
  destruct (refused (self s) use_account_token).
  - apply keeps_rate_limit.
  - rewrite requests_request_run. cbn [snd]. rewrite <- (keeps_rate_limit s). reflexivity.
Qed.

(** Unless the reply has status 201, the statements after the request
    leave the store as it is. *)
Lemma keeps_registration_reply (response : Response) (s : State) :
  status_code response <> 201 -> keeps (registration_reply response) s.
Proof.
  intros Hstatus. unfold registration_reply.
  destruct (status_code response =? 201) eqn:Heq; [apply Z.eqb_eq in Heq; contradiction |].
  apply keeps_bind; [apply keeps_response_json | intros body s1 _].
  apply keeps_bind; [apply keeps_dict_get_default | intros error s2 _].
  apply keeps_bind; [apply keeps_dict_get_default | intros message s3 _].
  apply keeps_bind; [apply keeps_format_value | intros shown s4 _].
  apply keeps_pure.
Qed.

(** Whatever the text and the state, a registration that does not get a
    reply of status 201 leaves the store as it is. *)
Lemma keeps_Register_Users (ctx : option SpaceTradersContext) (txt : string) (s : State) :
  (forall req response, remote (world s) req = Responds response ->
     status_code response <> 201) ->
  keeps (Register_Users ctx txt) s.
Proof.
  intros Hremote. unfold Register_Users.
  apply keeps_bind.
  { unfold check_initialization. destruct ctx as [[[|]] |]; apply keeps_pure. }
  intros u s0 Hinit.
  assert (s0 = s) as ->.
  { unfold check_initialization in Hinit. destruct ctx as [[[|]] |]; inversion Hinit; reflexivity. }
  destruct (scan_parts (split txt) None "COSMIC") as [callsign faction].
  destruct (negb (truthy callsign)); [apply keeps_pure |].
  apply keeps_try_except; [| intros; apply keeps_pure].
  apply keeps_bind; [apply keeps_make_request |].
  intros response s1 Hrun. apply keeps_registration_reply.
  pose proof (make_request_outcome "POST" "register" None true
                (registration_kwargs (default "" callsign) faction) s) as Hout.
  rewrite Hrun in Hout. cbn [fst] in Hout.
  destruct (refused (self s) true); [discriminate |].
  destruct (remote (world s) _) as [r | e] eqn:Hreply; cbn [of_reply] in Hout; [| discriminate].
  injection Hout as ->. exact (Hremote _ _ Hreply).
Qed.

Lemma Register_Users_replied (txt : string) (s : State) (callsign faction : string)
    (response : Response) :
  scan_parts (split txt) None "COSMIC" = (Some callsign, faction) ->
  callsign <> "" ->
  truthy (account_token (self s)) = true ->
  remote (world s) (registration_request s callsign faction) = Responds response ->
  Register_Users (Some (mkContext true)) txt s =
    try_except (registration_reply response) on_error (requested s callsign faction).
Proof.
  intros Hscan Hcall Hacct Hreply.
  unfold Register_Users, check_initialization. cbn [initialized].
  unfold mbind at 1, M_bind at 1, bind at 1, mret, M_ret, ret at 1.
  rewrite Hscan.
  assert (Htruthy : truthy (Some callsign) = true) by (destruct callsign; [contradiction | reflexivity]).
  rewrite Htruthy. cbn [negb default].
  unfold try_except, mbind, M_bind. unfold bind at 1.
  rewrite make_request_run. unfold refused. rewrite Hacct. cbn [andb negb].
  rewrite requests_request_run, rate_limit_remote.
  unfold id. fold (registration_request s callsign faction). rewrite Hreply.
  reflexivity.
Qed.

Lemma format_value_state (v : option json.value) (s : State) : (format_value v s).2 = s.
Proof. destruct v as [[| [|] | | | |] |]; reflexivity. Qed.

(** After a reply of status 201 whose body has the token and the
    symbol, the state is the one [store_token] leaves. *)
Lemma registration_reply_created (response : Response) (s : State)
    (pairs data agent : list (string * json.value)) (tok sym : string) :
  status_code response = 201 ->
  json.loads (text response) = json.Done (json.Obj pairs) ->
  json.get "data" pairs = Some (json.Obj data) ->
  json.get "token" data = Some (json.Str tok) ->
  json.get "agent" data = Some (json.Obj agent) ->
  json.get "symbol" agent = Some (json.Str sym) ->
  (try_except (registration_reply response) on_error s).2 = (store_token sym tok s).2.
Proof.
  intros Hstatus Hloads Hdata Htoken Hagent Hsymbol.
  unfold try_except, registration_reply. rewrite Hstatus. cbn [Z.eqb Pos.eqb].
  unfold response_json. rewrite Hloads.
  unfold dict_get_default, dict_get, mbind, M_bind, bind, mret, M_ret, ret.
  rewrite Hdata. cbn [default from_option]. unfold id. cbn beta iota.
  rewrite Htoken, Hagent. cbn [default from_option]. unfold id. cbn beta iota.
  rewrite Hsymbol. cbn [store_token_value].
  destruct (store_token sym tok s) as [[[] | e |] s1]; cbn [snd]; [| reflexivity ..].
  destruct (json.get "startingFaction" agent) as [[| [|] | | | |] |]; reflexivity.
Qed.

Lemma registration_reply_failed (response : Response) (s : State)
    (pairs details : list (string * json.value)) (message : string) :
  status_code response <> 201 ->
  json.loads (text response) = json.Done (json.Obj pairs) ->
  json.get "error" pairs = Some (json.Obj details) ->
  json.get "message" details = Some (json.Str message) ->
  (try_except (registration_reply response) on_error s).1 =
    Ok (Text ("Registration failed: " +:+ message +:+ " (Status code: "
              +:+ pretty (status_code response) +:+ ")")).
Proof.
  intros Hstatus Hloads Herror Hmessage.
  unfold try_except, registration_reply.
  destruct (status_code response =? 201) eqn:Heq; [apply Z.eqb_eq in Heq; contradiction |].
  unfold response_json. rewrite Hloads.
  unfold dict_get_default, dict_get, mbind, M_bind, bind, mret, M_ret, ret.
  rewrite Herror. cbn [default from_option]. unfold id. cbn beta iota.
  rewrite Hmessage. reflexivity.
Qed.

Lemma requested_store (s : State) (callsign faction : string) :
  store_of (requested s callsign faction) = store_of s.
Proof.
  unfold requested, store_of. cbn [self world emit fs].
  pose proof (keeps_rate_limit s) as H. unfold keeps, store_of in H. exact H.
Qed.

Lemma store_token_tokens (sym tok : string) (s : State) :
  tokens (self (store_token sym tok s).2) = <[sym := tok]> (tokens (self s)).
Proof. rewrite store_token_run, save_tokens_self. reflexivity. Qed.

(** C8. A registration for which the remote end answers: with status
    201 and a body that [response.json()] decodes and that has the
    token and the symbol of the agent, the store maps that symbol to
    that token afterwards, in memory and, when the token file can be
    written, in the file, whichever client object loads it; with any
    other status the store is left as it is and the answer carries the
    error message of the body, unchanged, and the status code. *)
Theorem registration_stores_token (txt : string) (s : State) (callsign faction : string)
    (response : Response) :
  scan_parts (split txt) None "COSMIC" = (Some callsign, faction) ->
  callsign <> "" ->
  truthy (account_token (self s)) = true ->
  remote (world s) (registration_request s callsign faction) = Responds response ->
  let run := Register_Users (Some (mkContext true)) txt s in
  (status_code response = 201 ->
   forall pairs data agent tok sym,
     json.loads (text response) = json.Done (json.Obj pairs) ->
     json.get "data" pairs = Some (json.Obj data) ->
     json.get "token" data = Some (json.Str tok) ->
     json.get "agent" data = Some (json.Obj agent) ->
     json.get "symbol" agent = Some (json.Str sym) ->
     tokens (self run.2) = <[sym := tok]> (tokens (self s))
     /\ (get_token sym run.2).1 = Ok (Some tok)
     /\ (fs (world s) !! TOKENS_FILE <> Some Locked ->
         forall c : SpaceTradersClient,
           (_load_tokens (mkState c (world run.2))).1
             = Ok (<[sym := tok]> (tokens (self s)))))
  /\ (status_code response <> 201 ->
      store_of run.2 = store_of s
      /\ forall pairs details message,
           json.loads (text response) = json.Done (json.Obj pairs) ->
           json.get "error" pairs = Some (json.Obj details) ->
           json.get "message" details = Some (json.Str message) ->
           run.1 = Ok (Text ("Registration failed: " +:+ message +:+ " (Status code: "
                             +:+ pretty (status_code response) +:+ ")"))).
Proof.
  intros Hscan Hcall Hacct Hreply. cbn zeta.
  rewrite (Register_Users_replied txt s callsign faction response Hscan Hcall Hacct Hreply).
  assert (Htokens : tokens (self (requested s callsign faction)) = tokens (self s))
    by exact (f_equal fst (requested_store s callsign faction)).
  assert (Hfs : fs (world (requested s callsign faction)) = fs (world s))
    by exact (f_equal snd (requested_store s callsign faction)).
  split.
  - intros Hstatus pairs data agent tok sym Hloads Hdata Htoken Hagent Hsymbol.
    rewrite (registration_reply_created response _ pairs data agent tok sym
               Hstatus Hloads Hdata Htoken Hagent Hsymbol).
    assert (Hmem : tokens (self (store_token sym tok (requested s callsign faction)).2)
                   = <[sym := tok]> (tokens (self s))).
    { rewrite store_token_tokens, Htokens. reflexivity. }
    conjuncts.
    + exact Hmem.
    + unfold get_token, mbind, M_bind, bind, get_self, mret, M_ret, ret. cbn [fst].
      rewrite Hmem, lookup_insert_eq. reflexivity.
    + intros Hfile c. rewrite store_token_run, save_tokens_run.
      * cbn [snd]. rewrite load_saved_by. cbn [self tokens set_tokens].
        rewrite Htokens. reflexivity.
      * cbn [world]. rewrite Hfs. exact Hfile.
  - intros Hstatus. split.
    + pose proof (keeps_try_except (registration_reply response) on_error
                    (requested s callsign faction)
                    (keeps_registration_reply response _ Hstatus)
                    (fun e s' => keeps_pure _ s')) as Hkeeps.
      unfold keeps in Hkeeps. rewrite Hkeeps. apply requested_store.
    + intros pairs details message Hloads Herror Hmessage.
      apply (registration_reply_failed response _ pairs details message
               Hstatus Hloads Herror Hmessage).
Qed.

Lemma registration_stores_token_witness :
  tokens (self (Register_Users (Some (mkContext true)) REGISTER
                  (fresh_state (answers 201 CREATED))).2) = {["ALPHA" := "tok123"]}
  /\ (_load_tokens
        (mkState (mkClient "" ∅ 0 None)
           (world (Register_Users (Some (mkContext true)) REGISTER
                     (fresh_state (answers 201 CREATED))).2))).1
       = Ok {["ALPHA" := "tok123"]}
  /\ store_of (Register_Users (Some (mkContext true)) REGISTER
                 (fresh_state (answers 409 CLAIMED))).2
       = store_of (fresh_state (answers 409 CLAIMED))
  /\ (Register_Users (Some (mkContext true)) REGISTER (fresh_state (answers 409 CLAIMED))).1
       = Ok (Text "Registration failed: Agent symbol has already been claimed. (Status code: 409)").
Proof.
  destruct (proj1 (registration_stores_token REGISTER (fresh_state (answers 201 CREATED))
                     "ALPHA" "COSMIC" (mkResponse 201 CREATED)
                     eq_refl ltac:(discriminate) eq_refl eq_refl) eq_refl
              [("data", json.Obj [("token", json.Str "tok123");
                                  ("agent", json.Obj [("symbol", json.Str "ALPHA");
                                                      ("startingFaction", json.Str "COSMIC")])])]
              [("token", json.Str "tok123");
               ("agent", json.Obj [("symbol", json.Str "ALPHA");
                                   ("startingFaction", json.Str "COSMIC")])]
              [("symbol", json.Str "ALPHA"); ("startingFaction", json.Str "COSMIC")]
              "tok123" "ALPHA" eq_refl eq_refl eq_refl eq_refl eq_refl)
    as (Hmemory & _ & Hfile).
  split; [exact Hmemory |]. split; [exact (Hfile ltac:(discriminate) _) |]. split.
  - apply (proj2 (registration_stores_token REGISTER (fresh_state (answers 409 CLAIMED))
                    "ALPHA" "COSMIC" (mkResponse 409 CLAIMED)
                    eq_refl ltac:(discriminate) eq_refl eq_refl)).
    discriminate.
  - apply (proj2 (proj2 (registration_stores_token REGISTER (fresh_state (answers 409 CLAIMED))
                    "ALPHA" "COSMIC" (mkResponse 409 CLAIMED)
                    eq_refl ltac:(discriminate) eq_refl eq_refl) ltac:(discriminate))
             [("error", json.Obj [("message", json.Str "Agent symbol has already been claimed.");
                                  ("code", json.Num "4111")])]
             [("message", json.Str "Agent symbol has already been claimed.");
              ("code", json.Num "4111")]
             "Agent symbol has already been claimed."); reflexivity.
Defined.

(** ** Calls of the rate limiter one after the other *)

Lemma tick_monotone (w : World) :
  monotone w -> clock w <= clock (tick w) /\ monotone (tick w).
Proof.
  unfold monotone, tick. intros H.
  destruct (lag w) as [| d ds] eqn:Hlag.
  - rewrite Hlag. split; [lia | constructor].
  - apply Forall_cons in H as [Hd Hds]. cbn [clock lag]. split; [lia | exact Hds].
Qed.

(** X1. On a clock that does not go backwards, [_rate_limit] stamps a time
    at least [min_interval] after the previous stamp, and leaves such a
    clock behind: in a run of calls one after the other, consecutive
    stamps are at least [min_interval] apart. *)
Lemma sequential_rate_limit_gap (s : State) :
  monotone (world s) ->
  last_request_time (self s) + min_interval <= last_request_time (self (_rate_limit s).2)
  /\ monotone (world (_rate_limit s).2).
Proof.
  intros Hmono. rewrite rate_limit_run. cbn [snd self world last_request_time set_last_request_time].
  destruct (tick_monotone (world s) Hmono) as [Hfirst Hmono1].
  assert (Hafter : last_request_time (self s) + min_interval <= clock (after_suspension s)
                   /\ monotone (after_suspension s)).
  { unfold after_suspension, elapsed, first_reading.
    destruct (clock (tick (world s)) - last_request_time (self s) <? min_interval) eqn:Hlt.
    - apply Z.ltb_lt in Hlt.
      set (d := min_interval - (clock (tick (world s)) - last_request_time (self s))).
      set (w := advance d (emit (EvSleep d)
                  (emit (EvNow (clock (tick (world s)))) (tick (world s))))).
      assert (Hm : monotone w) by exact Hmono1.
      assert (Hw : clock w = clock (tick (world s)) + d) by reflexivity.
      destruct (tick_monotone w Hm) as [Hle Hm'].
      split; [| exact Hm']. unfold d in Hw. lia.
    - apply Z.ltb_ge in Hlt. split; [cbn [emit clock]; lia | exact Hmono1]. }
  destruct Hafter as [Hstamp Hmono2].
  destruct (tick_monotone _ Hmono2) as [Hle Hmono3].
  unfold second_reading. split; [lia | exact Hmono3].
Qed.

(** * Further properties *)

(** ** The rate limiter *)

Lemma sequential_rate_limit_gap_witness :
  monotone (world alpha_state)
  /\ last_request_time (self alpha_state) + min_interval
       <= last_request_time (self (_rate_limit alpha_state).2)
  /\ monotone (world (_rate_limit alpha_state).2).
Proof.
  assert (H : monotone (world alpha_state)).
  { unfold monotone. cbn. repeat constructor; lia. }
  split; [exact H | exact (sequential_rate_limit_gap alpha_state H)].
Defined.

(** X2. [_rate_limit] never asks [time.sleep] for a negative or zero
    duration; and when the last request is not in the future of the
    clock, for no more than [min_interval]. *)
Theorem rate_limit_sleep_bounds (s : State) (d : Z) :
  In (EvSleep d) (new_events _rate_limit s) ->
  0 < d
  /\ (last_request_time (self s) <= first_reading s -> d <= min_interval).
Proof.
  rewrite rate_limit_events. unfold suspension.
  destruct (elapsed s <? min_interval) eqn:Hlt; cbn [app In].
  - apply Z.ltb_lt in Hlt. intros [H | [H | [H | []]]]; try discriminate.
    injection H as <-. unfold elapsed in *. split; [lia |]. intros Hpast. lia.
  - intros [H | [H | []]]; discriminate.
Qed.

Lemma rate_limit_sleep_bounds_witness :
  In (EvSleep 399750) (new_events _rate_limit alpha_state)
  /\ 0 < 399750 <= min_interval.
Proof.
  assert (H : In (EvSleep 399750) (new_events _rate_limit alpha_state)).
  { right. left. reflexivity. }
  destruct (rate_limit_sleep_bounds alpha_state 399750 H) as [Hpos Hle].
  split; [exact H |]. split; [exact Hpos |]. apply Hle. vm_compute. discriminate.
Defined.

(** ** The dispatcher *)

(** X3. Whatever its arguments and its outcome, [make_request] leaves
    the tokens, the account token, the base URL and the files as they
    are, and writes no file: of the client it only changes
    [last_request_time]. *)
Theorem make_request_changes_only_the_stamp (s : State) (method endpoint : string)
    (agent_symbol : option string) (use_account_token : bool) (kwargs : Kwargs) :
  let s' := (make_request method endpoint agent_symbol use_account_token kwargs s).2 in
  self s' = set_last_request_time (last_request_time (self s')) (self s)
  /\ fs (world s') = fs (world s)
  /\ api_key (world s') = api_key (world s)
  /\ forallb (fun e => negb (is_write e))
       (new_events (make_request method endpoint agent_symbol use_account_token kwargs) s)
     = true.
Proof.
  cbn zeta. conjuncts.
  - rewrite make_request_self, rate_limit_run. reflexivity.
  - exact (f_equal snd (keeps_make_request method endpoint agent_symbol use_account_token
                          kwargs s)).
  - rewrite make_request_run.
    assert (Hkey : forall w, api_key (tick w) = api_key w).
    { intros w. unfold tick. destruct (lag w); reflexivity. }
    assert (Hrate : api_key (world (_rate_limit s).2) = api_key (world s)).
    { rewrite rate_limit_run. cbn [snd world emit api_key]. rewrite Hkey.
      unfold after_suspension. destruct (elapsed s <? min_interval);
        repeat first [rewrite Hkey | progress (unfold advance, emit; cbn [api_key])];
        reflexivity. }
    destruct (refused (self s) use_account_token); [exact Hrate |].
    rewrite requests_request_run. exact Hrate.
  - rewrite make_request_events, rate_limit_events. unfold suspension.
    destruct (elapsed s <? min_interval), (refused (self s) use_account_token); reflexivity.
Qed.

Lemma lstrip_slash_slashes (n : nat) (endpoint : string) :
  lstrip_slash (slashes n +:+ endpoint) = lstrip_slash endpoint.
Proof. induction n as [| n IH]; [reflexivity | exact IH]. Qed.

Lemma lstrip_slash_head (endpoint rest : string) :
  lstrip_slash endpoint <> String "/" rest.
Proof.
  induction endpoint as [| c endpoint IH]; [discriminate |].
  cbn [lstrip_slash].
  destruct (Ascii.ascii_dec c "/") as [-> | Hc]; [exact IH |].
  assert (H : lstrip_slash (String c endpoint) = String c endpoint).
  { destruct c as [[] [] [] [] [] [] [] []]; try reflexivity. contradiction Hc. reflexivity. }
  cbn [lstrip_slash] in H. rewrite H. intros [= ->]. contradiction Hc. reflexivity.
Qed.

(** X4. The URL of a request is the base URL, one slash, and the
    endpoint without its leading slashes: the part after that slash
    never starts with a slash, and endpoints that differ by leading
    slashes only give the same call. *)
Theorem endpoint_leading_slashes (s : State) (method endpoint : string)
    (agent_symbol : option string) (use_account_token : bool) (kwargs : Kwargs) (n : nat) :
  make_request method (slashes n +:+ endpoint) agent_symbol use_account_token kwargs s
    = make_request method endpoint agent_symbol use_account_token kwargs s
  /\ Forall (fun req =>
       exists path, req_url req = base_url (self s) +:+ "/" +:+ path
                    /\ path = lstrip_slash endpoint
                    /\ forall rest, path <> String "/" rest)
       (requests_sent (make_request method endpoint agent_symbol use_account_token kwargs) s).
Proof.
  split.
  - rewrite !make_request_run. unfold request_of, url_of.
    rewrite lstrip_slash_slashes. reflexivity.
  - rewrite make_request_sent.
    destruct (refused (self s) use_account_token); constructor; [| constructor].
    exists (lstrip_slash endpoint). conjuncts; [reflexivity | reflexivity |].
    apply lstrip_slash_head.
Qed.

(** ** The credential store *)

Lemma get_token_run (agent_symbol : string) (s : State) :
  get_token agent_symbol s = (Ok (tokens (self s) !! agent_symbol), s).
Proof. reflexivity. Qed.

(** X5. [store_token] writes one entry: the token of any other identity
    reads as before, and of two tokens stored for the same identity the
    last one is read. Both hold whether or not the file could be
    written. *)
Theorem store_token_last_write_wins (s : State) (id other tok tok' : string) :
  (other <> id -> (get_token other (store_token id tok s).2).1 = (get_token other s).1)
  /\ (get_token id (store_token id tok' (store_token id tok s).2).2).1 = Ok (Some tok')
  /\ tokens (self (store_token id tok' (store_token id tok s).2).2)
       = tokens (self (store_token id tok' s).2).
Proof.
  rewrite !get_token_run. cbn [fst]. rewrite !store_token_tokens. conjuncts.
  - intros Hne. rewrite lookup_insert_ne by congruence. reflexivity.
  - rewrite lookup_insert_eq. reflexivity.
  - apply insert_insert_eq.
Qed.

(** X6. When the token file cannot be opened for writing, [store_token]
    raises [PermissionError] only after it has put the token in the
    mapping in memory: the token is read back by [get_token], while the
    files are as before and nothing was written. *)
Theorem store_token_unwritable (s : State) (id tok : string) :
  fs (world s) !! TOKENS_FILE = Some Locked ->
  (store_token id tok s).1 = Raise PermissionError
  /\ (get_token id (store_token id tok s).2).1 = Ok (Some tok)
  /\ world (store_token id tok s).2 = world s.
Proof.
  intros Hlocked. rewrite get_token_run. cbn [fst]. rewrite store_token_tokens.
  rewrite lookup_insert_eq. rewrite store_token_run.
  unfold _save_tokens, write_file, mbind, M_bind, bind, get_self, get_world.
  cbn [world self]. rewrite Hlocked. conjuncts; reflexivity.
Qed.

Lemma store_token_unwritable_witness :
  (store_token "BETA" "tok456" locked_state).1 = Raise PermissionError
  /\ (get_token "BETA" (store_token "BETA" "tok456" locked_state).2).1 = Ok (Some "tok456")
  /\ world (store_token "BETA" "tok456" locked_state).2 = world locked_state.
Proof.
  apply (store_token_unwritable locked_state "BETA" "tok456"). reflexivity.
Defined.

Lemma load_tokens_state (s : State) : (_load_tokens s).2 = s.
Proof.
  rewrite load_tokens_run.
  destruct (fs (world s) !! TOKENS_FILE) as [[content |] |]; [| reflexivity ..].
  unfold json_load.
  destruct (json.loads content) as [[| | | | | pairs] | |]; try reflexivity.
  destruct (json.as_str_dict pairs ∅); reflexivity.
Qed.

Lemma load_tokens_world (c c' : SpaceTradersClient) (w : World) :
  (_load_tokens (mkState c w)).1 = (_load_tokens (mkState c' w)).1.
Proof.
  rewrite !load_tokens_run. cbn [world].
  destruct (fs w !! TOKENS_FILE) as [[content |] |]; [| reflexivity ..].
  unfold json_load.
  destruct (json.loads content) as [[| | | | | pairs] | |]; try reflexivity.
  destruct (json.as_str_dict pairs ∅); reflexivity.
Qed.

Lemma new_client_run (w : World) (m : gmap string string) :
  (_load_tokens (blank w)).1 = Ok m ->
  new_client w =
    (Ok tt,
     mkState (mkClient PRODUCTION m (clock (tick w)) (api_key w))
       (if truthy (api_key w) then emit (EvNow (clock (tick w))) (tick w)
        else emit (EvPrint WARNING) (emit (EvNow (clock (tick w))) (tick w)))).
Proof.
  intros Hload. unfold new_client, __init__, mbind, M_bind.
  unfold bind at 1. unfold get_self at 1. unfold bind at 1. unfold put_self at 1.
  cbn [self world tokens last_request_time account_token].
  unfold bind at 1.
  pose proof (load_tokens_state (mkState (mkClient PRODUCTION ∅ 0 None) w)) as Hstate.
  pose proof (load_tokens_world (mkClient PRODUCTION ∅ 0 None) (mkClient "" ∅ 0 None) w)
    as Hsame.
  fold (blank w) in Hsame. rewrite Hload in Hsame.
  change "https://api.spacetraders.io/v2" with PRODUCTION.
  destruct (_load_tokens (mkState (mkClient PRODUCTION ∅ 0 None) w)) as [r s1].
  cbn [fst snd] in Hsame, Hstate. subst r s1.
  unfold bind, get_self, put_self, datetime_now, mbind, M_bind, bind, get_world, put_world,
    print, mret, M_ret, ret.
  cbn [self world set_tokens set_last_request_time base_url tokens last_request_time
       account_token fst snd].
  assert (Hkey : api_key (tick w) = api_key w).
  { unfold tick. destruct (lag w); reflexivity. }
  cbn [emit api_key]. rewrite Hkey.
  destruct (truthy (api_key w)); reflexivity.
Qed.

(** X7. When the token file does not exist, the construction of the
    client succeeds with an empty mapping, the clock reading as
    [last_request_time] and the environment's key as account token; it
    reads the clock once, prints the warning exactly when the key is
    unset or empty, sends no request and leaves the files alone. *)
Theorem client_construction (w : World) :
  fs w !! TOKENS_FILE = None ->
  (new_client w).1 = Ok tt
  /\ self (new_client w).2 = mkClient PRODUCTION ∅ (clock (tick w)) (api_key w)
  /\ new_events (fun _ => new_client w) (blank w)
       = EvNow (clock (tick w)) :: (if truthy (api_key w) then [] else [EvPrint WARNING])
  /\ fs (world (new_client w).2) = fs w.
Proof.
  intros Hfile.
  assert (Hload : (_load_tokens (blank w)).1 = Ok ∅).
  { rewrite load_tokens_run. cbn [world blank]. rewrite Hfile. reflexivity. }
  rewrite (new_client_run w ∅ Hload). cbn [fst snd self world].
  assert (Hfs : fs (tick w) = fs w) by apply fs_tick.
  assert (Htrace : trace (tick w) = trace w) by apply trace_tick.
  conjuncts; [reflexivity | reflexivity | |].
  - apply new_events_app. cbn [snd world blank].
    destruct (truthy (api_key w)); cbn [emit trace]; rewrite Htrace, <- ?app_assoc;
      reflexivity.
  - destruct (truthy (api_key w)); cbn [emit fs]; exact Hfs.
Qed.

Lemma client_construction_witness :
  (new_client keyless_world).1 = Ok tt
  /\ tokens (self (new_client keyless_world).2) = ∅
  /\ account_token (self (new_client keyless_world).2) = None
  /\ new_events (fun _ => new_client keyless_world) (blank keyless_world)
       = [EvNow 1000250; EvPrint WARNING].
Proof.
  destruct (client_construction keyless_world eq_refl) as (Hok & Hself & Hevents & _).
  split; [exact Hok |]. rewrite Hself. split; [reflexivity |]. split; [reflexivity |].
  exact Hevents.
Defined.

(** X8. Tokens survive a restart: when the token file can be written, a
    client constructed in the world that [store_token] leaves starts
    with the mapping that has the stored entry. *)
Theorem tokens_survive_restart (s : State) (id tok : string) :
  fs (world s) !! TOKENS_FILE <> Some Locked ->
  (new_client (world (store_token id tok s).2)).1 = Ok tt
  /\ tokens (self (new_client (world (store_token id tok s).2)).2)
       = <[id := tok]> (tokens (self s)).
Proof.
  intros Hfile. rewrite store_token_run, save_tokens_run by exact Hfile. cbn [snd].
  set (s0 := mkState (set_tokens (<[id := tok]> (tokens (self s))) (self s)) (world s)).
  assert (Hload : (_load_tokens (blank (world (saved s0)))).1
                  = Ok (<[id := tok]> (tokens (self s)))).
  { unfold blank. rewrite (load_tokens_world _ (self (saved s0))).
    change (mkState (self (saved s0)) (world (saved s0))) with (saved s0).
    rewrite load_saved. reflexivity. }
  rewrite (new_client_run _ _ Hload). split; reflexivity.
Qed.

Lemma tokens_survive_restart_witness :
  (new_client (world (store_token "BETA" "tok456" alpha_state).2)).1 = Ok tt
  /\ tokens (self (new_client (world (store_token "BETA" "tok456" alpha_state).2)).2)
       = <["BETA" := "tok456"]> {["ALPHA" := "tok123"]}.
Proof.
  apply (tokens_survive_restart alpha_state "BETA" "tok456"). discriminate.
Defined.

(** ** The registration tool *)

Lemma check_initialization_run (ctx : option SpaceTradersContext) (s : State) :
  check_initialization ctx s =
    (if ready ctx then Ok tt else Raise (ValueError NOT_INITIALIZED), s).
Proof. destruct ctx as [[[|]] |]; reflexivity. Qed.

Lemma scan_parts_no_callsign (parts : list string) (callsign : option string)
    (faction : string) :
  Forall (fun word => lower word <> "callsign:") (removelast parts) ->
  (scan_parts parts callsign faction).1 = callsign.
Proof.
  revert callsign faction.
  induction parts as [| word rest IH]; intros callsign faction Hwords; [reflexivity |].
  destruct rest as [| next rest]; [reflexivity |].
  change (removelast (word :: next :: rest)) with (word :: removelast (next :: rest)) in Hwords.
  apply Forall_cons in Hwords as [Hword Hrest].
  cbn [scan_parts].
  destruct (String.eqb (lower word) "callsign:") eqn:Heq.
  - apply String.eqb_eq in Heq. contradiction.
  - destruct (String.eqb (lower word) "faction:"); apply IH; exact Hrest.
Qed.

Lemma scan_parts_no_faction (parts : list string) (callsign : option string)
    (faction : string) :
  Forall (fun word => lower word <> "faction:") (removelast parts) ->
  (scan_parts parts callsign faction).2 = faction.
Proof.
  revert callsign faction.
  induction parts as [| word rest IH]; intros callsign faction Hwords; [reflexivity |].
  destruct rest as [| next rest]; [reflexivity |].
  change (removelast (word :: next :: rest)) with (word :: removelast (next :: rest)) in Hwords.
  apply Forall_cons in Hwords as [Hword Hrest].
  cbn [scan_parts].
  destruct (String.eqb (lower word) "callsign:"); [apply IH; exact Hrest |].
  destruct (String.eqb (lower word) "faction:") eqn:Heq; [| apply IH; exact Hrest].
  apply String.eqb_eq in Heq. contradiction.
Qed.

Lemma scan_parts_last_callsign (before : list string) (keyword value : string)
    (callsign : option string) (faction : string) :
  lower keyword = "callsign:" ->
  (scan_parts (before ++ [keyword; value]) callsign faction).1 = Some value.
Proof.
  intros Hkey. revert callsign faction.
  induction before as [| word rest IH]; intros callsign faction.
  - cbn [app scan_parts]. rewrite Hkey. reflexivity.
  - assert (Hstep : forall c f,
      (scan_parts (word :: rest ++ [keyword; value]) c f).1 = Some value).
    { intros c f. destruct rest as [| next rest].
      - cbn [app scan_parts].
        destruct (String.eqb (lower word) "callsign:"); [apply (IH _ f) |].
        destruct (String.eqb (lower word) "faction:"); apply (IH c).
      - change ((next :: rest) ++ [keyword; value])
          with (next :: (rest ++ [keyword; value])) in *.
        change (scan_parts (word :: next :: rest ++ [keyword; value]) c f)
          with (if String.eqb (lower word) "callsign:"
                then scan_parts (next :: rest ++ [keyword; value]) (Some next) f
                else if String.eqb (lower word) "faction:"
                then scan_parts (next :: rest ++ [keyword; value]) c next
                else scan_parts (next :: rest ++ [keyword; value]) c f).
        destruct (String.eqb (lower word) "callsign:"); [apply IH |].
        destruct (String.eqb (lower word) "faction:"); apply IH. }
    apply Hstep.
Qed.

(** X9. A text in which no word but the last is [callsign:] (in any
    letter case) gets the usage message: nothing is sent, no time is
    spent in the rate limiter and the state is as before. *)
Theorem registration_without_callsign (ctx : option SpaceTradersContext) (txt : string)
    (s : State) :
  ready ctx = true ->
  Forall (fun word => lower word <> "callsign:") (removelast (split txt)) ->
  Register_Users ctx txt s = (Ok (Text NO_CALLSIGN), s).
Proof.
  intros Hready Hwords. unfold Register_Users, mbind, M_bind. unfold bind at 1.
  rewrite check_initialization_run, Hready.
  pose proof (scan_parts_no_callsign (split txt) None "COSMIC" Hwords) as Hscan.
  destruct (scan_parts (split txt) None "COSMIC") as [callsign faction].
  cbn [fst] in Hscan. subst callsign. reflexivity.
Qed.

Lemma registration_without_callsign_witness :
  Register_Users (Some (mkContext true)) "register me with CALLSIGN:" alpha_state
    = (Ok (Text NO_CALLSIGN), alpha_state).
Proof.
  apply registration_without_callsign; [reflexivity |].
  vm_compute. repeat constructor; discriminate.
Defined.

(** X10. When the words end with [callsign:], in any letter case, and
    one more word, that word is the callsign, whatever comes before (an
    earlier callsign is overridden); and when no word before is
    [faction:], the faction stays the one given, the default COSMIC of
    [Register_Users]. *)
Theorem registration_keywords (before : list string) (keyword value : string)
    (callsign : option string) (faction : string) :
  lower keyword = "callsign:" ->
  (scan_parts (before ++ [keyword; value]) callsign faction).1 = Some value
  /\ (Forall (fun word => lower word <> "faction:") before ->
      (scan_parts (before ++ [keyword; value]) callsign faction).2 = faction).
Proof.
  intros Hkey. split; [apply scan_parts_last_callsign; exact Hkey |].
  intros Hwords. apply scan_parts_no_faction.
  assert (Hlast : removelast (before ++ [keyword; value]) = before ++ [keyword]).
  { change [keyword; value] with ([keyword] ++ [value]). rewrite app_assoc.
    apply removelast_last. }
  rewrite Hlast. apply Forall_app. split; [exact Hwords |].
  constructor; [| constructor]. rewrite Hkey. discriminate.
Qed.

Lemma registration_keywords_witness :
  split "callsign: OLD Faction: VOID CallSign: ALPHA"
    = ["callsign:"; "OLD"; "Faction:"; "VOID"] ++ ["CallSign:"; "ALPHA"]
  /\ scan_parts (split "callsign: OLD Faction: VOID CallSign: ALPHA") None "COSMIC"
       = (Some "ALPHA", "VOID")
  /\ (scan_parts (["Register"; "with"] ++ ["CALLSIGN:"; "ALPHA"]) None "COSMIC").2 = "COSMIC".
Proof.
  split; [reflexivity |]. split; [reflexivity |].
  apply (registration_keywords ["Register"; "with"] "CALLSIGN:" "ALPHA" None "COSMIC" eq_refl).
  repeat constructor; discriminate.
Defined.

Lemma Register_Users_dispatch (ctx : option SpaceTradersContext) (txt : string) (s : State)
    (callsign faction : string) :
  ready ctx = true ->
  scan_parts (split txt) None "COSMIC" = (Some callsign, faction) ->
  callsign <> "" ->
  Register_Users ctx txt s =
    try_except
      (bind (make_request "POST" "register" None true (registration_kwargs callsign faction))
            registration_reply)
      on_error s.
Proof.
  intros Hready Hscan Hcall. unfold Register_Users, mbind, M_bind. unfold bind at 1.
  rewrite check_initialization_run, Hready, Hscan.
  assert (Htruthy : truthy (Some callsign) = true)
    by (destruct callsign; [contradiction | reflexivity]).
  rewrite Htruthy. reflexivity.
Qed.

(** X11. Once the context is initialized [Register_Users] raises
    nothing, and an exception of the dispatch (a missing account token,
    a connection that fails) becomes the answer: the error text with
    that exception, from the state the dispatch left. Without an
    initialized context it raises [ValueError] before anything else. *)
Theorem registration_errors_are_answers (ctx : option SpaceTradersContext) (txt : string)
    (s : State) :
  (ready ctx = false ->
   Register_Users ctx txt s = (Raise (ValueError NOT_INITIALIZED), s))
  /\ (ready ctx = true -> forall e, (Register_Users ctx txt s).1 <> Raise e)
  /\ (ready ctx = true ->
      forall callsign faction e,
        scan_parts (split txt) None "COSMIC" = (Some callsign, faction) ->
        callsign <> "" ->
        (make_request "POST" "register" None true
           (registration_kwargs callsign faction) s).1 = Raise e ->
        Register_Users ctx txt s =
          (Ok (TextAndError "Error during registration: " e),
           (make_request "POST" "register" None true
              (registration_kwargs callsign faction) s).2)).
Proof.
  conjuncts.
  - intros Hready. unfold Register_Users, mbind, M_bind. unfold bind at 1.
    rewrite check_initialization_run, Hready. reflexivity.
  - intros Hready e. unfold Register_Users, mbind, M_bind. unfold bind at 1.
    rewrite check_initialization_run, Hready.
    destruct (scan_parts (split txt) None "COSMIC") as [callsign faction].
    destruct (negb (truthy callsign)); [discriminate |].
    unfold try_except.
    match goal with |- context [bind ?c ?k s] => destruct (bind c k s) as [[a | e' |] s'] end;
      discriminate.
  - intros Hready callsign faction e Hscan Hcall Hraise.
    rewrite (Register_Users_dispatch ctx txt s callsign faction Hready Hscan Hcall).
    unfold try_except, bind.
    destruct (make_request "POST" "register" None true
                (registration_kwargs callsign faction) s) as [r s'].
    cbn [fst snd] in *. subst r. reflexivity.
Qed.

Lemma registration_errors_are_answers_witness :
  Register_Users None REGISTER keyless_state
    = (Raise (ValueError NOT_INITIALIZED), keyless_state)
  /\ (Register_Users (Some (mkContext true)) REGISTER keyless_state).1
       = Ok (TextAndError "Error during registration: " (ValueError MISSING_KEY))
  /\ (Register_Users (Some (mkContext true)) REGISTER (fresh_state unreachable)).1
       = Ok (TextAndError "Error during registration: "
               (ConnectionError "Connection refused")).
Proof.
  split; [| split].
  - apply (proj1 (registration_errors_are_answers None REGISTER keyless_state)). reflexivity.
  - rewrite (proj2 (proj2 (registration_errors_are_answers (Some (mkContext true)) REGISTER
                             keyless_state))
               eq_refl "ALPHA" "COSMIC" (ValueError MISSING_KEY) eq_refl
               ltac:(discriminate) eq_refl).
    reflexivity.
  - rewrite (proj2 (proj2 (registration_errors_are_answers (Some (mkContext true)) REGISTER
                             (fresh_state unreachable)))
               eq_refl "ALPHA" "COSMIC" (ConnectionError "Connection refused") eq_refl
               ltac:(discriminate) eq_refl).
    reflexivity.
Defined.

Lemma silent_pure {A} (r : result A) (s : State) : silent (fun s0 => (r, s0)) s.
Proof. exists []. split; [symmetry; apply app_nil_r | reflexivity]. Qed.

Lemma silent_bind {A B} (c : M A) (k : A -> M B) (s : State) :
  silent c s ->
  (forall a s', c s = (Ok a, s') -> silent (k a) s') ->
  silent (bind c k) s.
Proof.
  unfold silent, bind. intros (l & Hl & Hsent) Hk.
  destruct (c s) as [[a | e |] s'] eqn:Hrun; cbn [snd] in *;
    [| exists l; split; assumption ..].
  destruct (Hk a s' eq_refl) as (l' & Hl' & Hsent').
  exists (l ++ l'). rewrite Hl', Hl, app_assoc, sent_app, Hsent, Hsent'.
  split; reflexivity.
Qed.

Lemma silent_try_except {A} (body : M A) (handler : exn -> M A) (s : State) :
  silent body s ->
  (forall e s', silent (handler e) s') ->
  silent (try_except body handler) s.
Proof.
  unfold silent, try_except. intros (l & Hl & Hsent) Hhandler.
  destruct (body s) as [[a | e |] s'] eqn:Hrun; cbn [snd] in *;
    [exists l; split; assumption | | exists l; split; assumption].
  destruct (Hhandler e s') as (l' & Hl' & Hsent').
  exists (l ++ l'). rewrite Hl', Hl, app_assoc, sent_app, Hsent, Hsent'.
  split; reflexivity.
Qed.

Lemma silent_response_json (r : Response) (s : State) : silent (response_json r) s.
Proof. unfold response_json. destruct (json.loads (text r)); apply silent_pure. Qed.

Lemma silent_dict_get (d : json.value) (key : string) (s : State) : silent (dict_get d key) s.
Proof. destruct d; apply silent_pure. Qed.

Lemma silent_dict_get_default (d : json.value) (key : string) (dflt : json.value)
    (s : State) :
  silent (dict_get_default d key dflt) s.
Proof. apply silent_bind; [apply silent_dict_get |]. intros; apply silent_pure. Qed.

Lemma silent_format_value (v : option json.value) (s : State) : silent (format_value v) s.
Proof. destruct v as [[| [|] | | | |] |]; apply silent_pure. Qed.

Lemma silent_store_token (agent_symbol token : string) (s : State) :
  silent (store_token agent_symbol token) s.
Proof.
  unfold silent. rewrite store_token_run.
  unfold _save_tokens, write_file, mbind, M_bind, bind, get_self, get_world.
  cbn [world self].
  destruct (fs (world s) !! TOKENS_FILE) as [[content |] |].
  - eexists [_]. split; reflexivity.
  - exists []. split; [symmetry; apply app_nil_r | reflexivity].
  - eexists [_]. split; reflexivity.
Qed.

Lemma silent_store_token_value (symbol token : option json.value) (s : State) :
  silent (store_token_value symbol token) s.
Proof.
  destruct symbol as [[| | | sym | |] |]; try apply silent_pure;
    destruct token as [[| | | tok | |] |]; try apply silent_pure.
  apply silent_store_token.
Qed.

Lemma silent_registration_reply (response : Response) (s : State) :
  silent (registration_reply response) s.
Proof.
  unfold registration_reply.
  repeat first
    [ apply silent_pure
    | apply silent_response_json
    | apply silent_dict_get_default
    | apply silent_dict_get
    | apply silent_format_value
    | apply silent_store_token_value
    | match goal with |- silent (if ?b then _ else _) _ => destruct b end
    | apply silent_bind; [| intros ? ? _] ].
Qed.

(** X12. A registration with a callsign and an account token sends
    exactly one request, whatever the reply and whatever follows it: a
    POST to [register] under the base URL, with the account token as
    bearer, whose [data] is a JSON text that decodes to the object of
    the callsign and the faction, whatever characters they contain. *)
Theorem registration_request_sent (ctx : option SpaceTradersContext) (txt : string)
    (s : State) (callsign faction : string) :
  ready ctx = true ->
  scan_parts (split txt) None "COSMIC" = (Some callsign, faction) ->
  callsign <> "" ->
  truthy (account_token (self s)) = true ->
  let req := registration_request s callsign faction in
  let body := json.dumps None [("symbol", callsign); ("faction", faction)] in
  requests_sent (Register_Users ctx txt) s = [req]
  /\ req_method req = "POST"
  /\ req_url req = base_url (self s) +:+ "/register"
  /\ req_headers req !! "Authorization"
       = Some ("Bearer " +:+ default "" (account_token (self s)))
  /\ req_kwargs req !! "data" = Some body
  /\ json.loads body
       = json.Done (json.Obj [("symbol", json.Str callsign); ("faction", json.Str faction)]).
Proof.
  intros Hready Hscan Hcall Hacct. cbn zeta. conjuncts.
  - assert (Hsilent : exists l,
      trace (world (Register_Users ctx txt s).2)
        = trace (world (requested s callsign faction)) ++ l /\ sent l = []).
    { rewrite (Register_Users_dispatch ctx txt s callsign faction Hready Hscan Hcall).
      unfold try_except, bind. rewrite make_request_run. unfold refused.
      rewrite Hacct. cbn [andb negb]. rewrite requests_request_run.
      fold (registration_request s callsign faction). fold (requested s callsign faction).
      destruct (of_reply _) as [response | e |].
      - pose proof (silent_registration_reply response (requested s callsign faction))
          as (l & Hl & Hsent).
        destruct (registration_reply response (requested s callsign faction))
          as [[a | e |] s'] eqn:Hrun; cbn [snd] in *;
          exists l; split; assumption.
      - exists []. split; [symmetry; apply app_nil_r | reflexivity].
      - exists []. split; [symmetry; apply app_nil_r | reflexivity]. }
    destruct Hsilent as (l & Hl & Hsent).
    unfold requests_sent.
    rewrite (new_events_app (Register_Users ctx txt) s
               ((EvNow (first_reading s) :: suspension s ++ [EvNow (second_reading s)])
                ++ [EvRequest (registration_request s callsign faction)] ++ l)).
    + rewrite !sent_app, sent_rate_limit, Hsent. reflexivity.
    + rewrite Hl. unfold requested. cbn [world emit trace].
      rewrite rate_limit_trace, <- !app_assoc. reflexivity.
  - reflexivity.
  - reflexivity.
  - unfold registration_request, request_of, resolve_credential. cbn [req_headers].
    rewrite (truthy_nonempty _ Hacct). cbn [with_credential]. apply lookup_insert_eq.
  - unfold registration_request, request_of, registration_kwargs. cbn [req_kwargs kw_others].
    apply lookup_singleton_eq.
  - apply loads_dumps.
Qed.

Lemma registration_request_sent_witness :
  requests_sent (Register_Users (Some (mkContext true)) QUOTED)
    (fresh_state (answers 201 CREATED))
    = [registration_request (fresh_state (answers 201 CREATED)) (json.text "A'B\C") "VOID"]
  /\ req_kwargs (registration_request (fresh_state (answers 201 CREATED))
                   (json.text "A'B\C") "VOID") !! "data"
       = Some (json.dumps None [("symbol", json.text "A'B\C"); ("faction", "VOID")])
  /\ json.dumps None [("symbol", json.text "A'B\C"); ("faction", "VOID")]
       = json.text "{'symbol': 'A\'B\\C', 'faction': 'VOID'}"
  /\ json.loads (json.dumps None [("symbol", json.text "A'B\C"); ("faction", "VOID")])
       = json.Done (json.Obj [("symbol", json.Str (json.text "A'B\C"));
                              ("faction", json.Str "VOID")]).
Proof.
  destruct (registration_request_sent (Some (mkContext true)) QUOTED
              (fresh_state (answers 201 CREATED)) (json.text "A'B\C") "VOID"
              eq_refl eq_refl ltac:(discriminate) eq_refl)
    as (Hsent & _ & _ & _ & Hdata & Hloads).
  split; [exact Hsent |]. split; [exact Hdata |]. split; [reflexivity | exact Hloads].
Defined.

(** X13. Whatever the context and the text, a registration to which the
    remote end does not answer with status 201 leaves the tokens in
    memory and the files as they are. *)
Theorem registration_changes_store_only_on_201 (ctx : option SpaceTradersContext)
    (txt : string) (s : State) :
  (forall req response, remote (world s) req = Responds response ->
     status_code response <> 201) ->
  tokens (self (Register_Users ctx txt s).2) = tokens (self s)
  /\ fs (world (Register_Users ctx txt s).2) = fs (world s).
Proof.
  intros Hremote. pose proof (keeps_Register_Users ctx txt s Hremote) as Hkeeps.
  unfold keeps, store_of in Hkeeps. injection Hkeeps as Htokens Hfs. split; assumption.
Qed.

Lemma registration_changes_store_only_on_201_witness :
  tokens (self (Register_Users (Some (mkContext true)) REGISTER
                  (fresh_state (answers 200 CREATED))).2) = ∅
  /\ fs (world (Register_Users (Some (mkContext true)) REGISTER
                  (fresh_state (answers 200 CREATED))).2) = ∅.
Proof.
  apply (registration_changes_store_only_on_201 (Some (mkContext true)) REGISTER
           (fresh_state (answers 200 CREATED))).
  intros req response [= <-]. discriminate.
Defined.

(** ** The tools that read *)

Section Tool.

Variables (ctx : option SpaceTradersContext) (method endpoint : string)
  (agent_symbol : option string) (use_account_token : bool) (kwargs : Kwargs)
  (reply : Response -> M Answer) (handler : exn -> M Answer).

Hypothesis Hreads : reads reply.
Hypothesis Hanswering : answering handler.

Let T := tool ctx method endpoint agent_symbol use_account_token kwargs reply handler.
Let req (s : State) := request_of (self s) method endpoint agent_symbol use_account_token kwargs.

Lemma tool_not_ready (s : State) :
  ready ctx = false -> T s = (Raise (ValueError NOT_INITIALIZED), s).
Proof.
  intros Hready. unfold T, tool. unfold bind at 1.
  rewrite check_initialization_run, Hready. reflexivity.
Qed.

Lemma tool_refused (s : State) :
  ready ctx = true -> refused (self s) use_account_token = true ->
  exists prefix,
    T s = (Ok (TextAndError prefix (ValueError MISSING_KEY)), (_rate_limit s).2).
Proof.
  intros Hready Hrefused. destruct Hanswering as [prefix Hhandler]. exists prefix.
  unfold T, tool. unfold bind at 1. rewrite check_initialization_run, Hready.
  unfold try_except, bind. rewrite make_request_run, Hrefused. apply Hhandler.
Qed.

Lemma tool_failed (s : State) (e : exn) :
  ready ctx = true -> refused (self s) use_account_token = false ->
  remote (world s) (req s) = Fails e ->
  exists prefix, T s = (Ok (TextAndError prefix e), dispatched s (req s)).
Proof.
  intros Hready Hrefused Hreply. destruct Hanswering as [prefix Hhandler]. exists prefix.
  unfold T, tool. unfold bind at 1. rewrite check_initialization_run, Hready.
  unfold try_except, bind. rewrite make_request_run, Hrefused.
  rewrite requests_request_run, rate_limit_remote. fold (req s). rewrite Hreply.
  apply Hhandler.
Qed.

Lemma tool_replied (s : State) (response : Response) :
  ready ctx = true -> refused (self s) use_account_token = false ->
  remote (world s) (req s) = Responds response ->
  T s = try_except (reply response) handler (dispatched s (req s)).
Proof.
  intros Hready Hrefused Hreply.
  unfold T, tool. unfold bind at 1. rewrite check_initialization_run, Hready.
  unfold try_except, bind. rewrite make_request_run, Hrefused.
  rewrite requests_request_run, rate_limit_remote. fold (req s). rewrite Hreply.
  reflexivity.
Qed.

Lemma try_reads (response : Response) (s : State) :
  (try_except (reply response) handler s).2 = s.
Proof.
  destruct Hanswering as [prefix Hhandler]. unfold try_except.
  pose proof (Hreads response s) as Hstate.
  destruct (reply response s) as [[a | e |] s']; cbn [snd] in *; subst s';
    [reflexivity | rewrite Hhandler; reflexivity | reflexivity].
Qed.

(** The state a tool leaves: the one it started from when it is not
    initialized; else the one the rate limiter leaves, with the request
    sent unless it was refused. *)
Lemma tool_state (s : State) :
  (T s).2 =
    if ready ctx
    then if refused (self s) use_account_token then (_rate_limit s).2
         else dispatched s (req s)
    else s.
Proof.
  destruct (ready ctx) eqn:Hready; [| rewrite tool_not_ready by exact Hready; reflexivity].
  destruct (refused (self s) use_account_token) eqn:Hrefused.
  - destruct (tool_refused s Hready Hrefused) as [prefix ->]. reflexivity.
  - destruct (remote (world s) (req s)) as [response | e] eqn:Hreply.
    + rewrite (tool_replied s response Hready Hrefused Hreply). apply try_reads.
    + destruct (tool_failed s e Hready Hrefused Hreply) as [prefix ->]. reflexivity.
Qed.

Lemma tool_never_raises (s : State) (e : exn) : ready ctx = true -> (T s).1 <> Raise e.
Proof.
  intros Hready. destruct Hanswering as [prefix Hhandler].
  unfold T, tool. unfold bind at 1. rewrite check_initialization_run, Hready.
  unfold try_except.
  match goal with |- context [bind ?c ?k s] => destruct (bind c k s) as [[a | e' |] s'] end;
    [discriminate | rewrite Hhandler; discriminate | discriminate].
Qed.

Lemma tool_sent (s : State) :
  requests_sent T s =
    if ready ctx && negb (refused (self s) use_account_token) then [req s] else [].
Proof.
  unfold requests_sent, new_events. rewrite tool_state.
  destruct (ready ctx); cbn [andb].
  - destruct (refused (self s) use_account_token); cbn [negb].
    + fold (new_events _rate_limit s). rewrite rate_limit_events. apply sent_rate_limit.
    + unfold dispatched. cbn [world emit trace]. rewrite rate_limit_trace.
      rewrite <- app_assoc, drop_app_length, sent_app.
      change (EvNow (first_reading s) :: suspension s ++ [EvNow (second_reading s)])
        with ([] ++ EvNow (first_reading s) :: suspension s ++ [EvNow (second_reading s)]).
      rewrite sent_app. cbn [app]. unfold sent at 1. cbn [omap].
      rewrite sent_rate_limit. reflexivity.
  - rewrite drop_all. reflexivity.
Qed.

Lemma tool_keeps (s : State) : store_of (T s).2 = store_of s.
Proof.
  rewrite tool_state. destruct (ready ctx); [| reflexivity].
  destruct (refused (self s) use_account_token).
  - apply keeps_rate_limit.
  - unfold dispatched, store_of. cbn [self world emit fs]. apply (keeps_rate_limit s).
Qed.

End Tool.

Lemma still_pure {A} (r : result A) : still (fun s => (r, s)).
Proof. intros s. reflexivity. Qed.

Lemma still_bind {A B} (c : M A) (k : A -> M B) :
  still c -> (forall a, still (k a)) -> still (bind c k).
Proof.
  intros Hc Hk s. unfold bind. pose proof (Hc s) as Hs.
  destruct (c s) as [[a | e |] s']; cbn [snd] in *; subst s'; [apply Hk | reflexivity ..].
Qed.

Lemma still_response_json (r : Response) : still (response_json r).
Proof. unfold response_json. destruct (json.loads (text r)); apply still_pure. Qed.

Lemma still_dict_get (d : json.value) (key : string) : still (dict_get d key).
Proof. destruct d; apply still_pure. Qed.

Lemma still_dict_get_default (d : json.value) (key : string) (dflt : json.value) :
  still (dict_get_default d key dflt).
Proof. apply still_bind; [apply still_dict_get |]. intros; apply still_pure. Qed.

Lemma still_format_value (v : option json.value) : still (format_value v).
Proof. destruct v as [[| [|] | | | |] |]; apply still_pure. Qed.

Lemma still_dumps_result (result : list (string * option json.value)) :
  still (dumps_result result).
Proof.
  unfold dumps_result.
  destruct (mapM _ result) as [[| field fields] |]; apply still_pure.
Qed.

Ltac still_steps :=
  repeat first
    [ apply still_pure
    | apply still_response_json
    | apply still_dict_get_default
    | apply still_dict_get
    | apply still_format_value
    | apply still_dumps_result
    | match goal with |- still (if ?b then _ else _) => destruct b end
    | apply still_bind; [| intros ?] ].

Lemma reads_failure (prefix : string) : reads (failure prefix).
Proof. intros response. change (still (failure prefix response)). unfold failure. still_steps. Qed.

Lemma reads_agent_details : reads agent_details.
Proof. intros response. change (still (agent_details response)). unfold agent_details. still_steps. Qed.

Lemma answering_text (prefix : string) :
  answering (fun e => ret (TextAndError prefix e)).
Proof. exists prefix. reflexivity. Qed.

Lemma View_Agent_Details_tool (ctx : option SpaceTradersContext) (agent_symbol : string) :
  View_Agent_Details ctx agent_symbol =
    tool ctx "GET" "my/agent" (Some agent_symbol) false no_kwargs view_agent_reply
      (fun e => ret (TextAndError "Error retrieving agent details: " e)).
Proof. reflexivity. Qed.

Lemma Get_Public_Agent_tool (ctx : option SpaceTradersContext) (agent_symbol : string) :
  Get_Public_Agent ctx agent_symbol =
    tool ctx "GET" ("agents/" +:+ agent_symbol) None false no_kwargs public_agent_reply
      (fun e => ret (TextAndError "Error retrieving public agent details: " e)).
Proof. reflexivity. Qed.

Lemma Get_Ship_Cooldown_tool (ctx : option SpaceTradersContext)
    (agent_symbol ship_symbol : string) :
  Get_Ship_Cooldown ctx agent_symbol ship_symbol =
    tool ctx "GET" ("my/ships/" +:+ ship_symbol +:+ "/cooldown") (Some agent_symbol) false
      no_kwargs cooldown_reply
      (fun e => ret (TextAndError "Error getting ship cooldown: " e)).
Proof. reflexivity. Qed.

Lemma reads_view_agent_reply : reads view_agent_reply.
Proof.
  intros response. unfold view_agent_reply.
  destruct (status_code response =? 200); [apply reads_agent_details | apply reads_failure].
Qed.

Lemma reads_public_agent_reply : reads public_agent_reply.
Proof.
  intros response. unfold public_agent_reply.
  destruct (status_code response =? 200); [apply reads_agent_details | apply reads_failure].
Qed.

Lemma reads_cooldown_reply : reads cooldown_reply.
Proof.
  intros response. change (still (cooldown_reply response)). unfold cooldown_reply.
  destruct (status_code response =? 204); [apply still_pure |].
  destruct (status_code response =? 200); [still_steps |].
  exact (reads_failure _ response).
Qed.

(** X14. [View_Agent_Details], [Get_Public_Agent] and
    [Get_Ship_Cooldown] never change the tokens or the files, whatever
    the reply; they raise [ValueError], from an unchanged state, when
    the context is not initialized, and nothing once it is: every other
    exception is answered as text. *)
Theorem reading_tools_are_safe (agent_symbol ship_symbol : string) :
  safe_tool (fun ctx => View_Agent_Details ctx agent_symbol)
  /\ safe_tool (fun ctx => Get_Public_Agent ctx agent_symbol)
  /\ safe_tool (fun ctx => Get_Ship_Cooldown ctx agent_symbol ship_symbol).
Proof.
  conjuncts; intros ctx s.
  - rewrite View_Agent_Details_tool. conjuncts.
    + apply tool_keeps; [apply reads_view_agent_reply | apply answering_text].
    + apply tool_not_ready.
    + intros Hready e. apply tool_never_raises; [apply answering_text | exact Hready].
  - rewrite Get_Public_Agent_tool. conjuncts.
    + apply tool_keeps; [apply reads_public_agent_reply | apply answering_text].
    + apply tool_not_ready.
    + intros Hready e. apply tool_never_raises; [apply answering_text | exact Hready].
  - rewrite Get_Ship_Cooldown_tool. conjuncts.
    + apply tool_keeps; [apply reads_cooldown_reply | apply answering_text].
    + apply tool_not_ready.
    + intros Hready e. apply tool_never_raises; [apply answering_text | exact Hready].
Qed.

(** X15. The authenticated read: with an initialized context, and for
    an agent with a stored token, [View_Agent_Details] sends exactly one
    request, whatever the reply: a GET of [my/agent] under the base URL,
    with no body, whose [Authorization] is the bearer of that token. *)
Theorem agent_details_request (ctx : option SpaceTradersContext) (agent_symbol tok : string)
    (s : State) :
  ready ctx = true ->
  agent_symbol <> "" ->
  tokens (self s) !! agent_symbol = Some tok ->
  tok <> "" ->
  let req := request_of (self s) "GET" "my/agent" (Some agent_symbol) false no_kwargs in
  requests_sent (View_Agent_Details ctx agent_symbol) s = [req]
  /\ req_method req = "GET"
  /\ req_url req = base_url (self s) +:+ "/my/agent"
  /\ req_headers req !! "Authorization" = Some ("Bearer " +:+ tok)
  /\ req_kwargs req = ∅.
Proof.
  intros Hready Hsym Htok Hne. cbn zeta. conjuncts.
  - rewrite View_Agent_Details_tool.
    rewrite tool_sent by (first [apply reads_view_agent_reply | apply answering_text]).
    rewrite Hready. reflexivity.
  - reflexivity.
  - reflexivity.
  - unfold request_of, resolve_credential, nonempty. cbn [req_headers].
    assert (H1 : truthy (Some agent_symbol) = true)
      by (destruct agent_symbol; [contradiction | reflexivity]).
    rewrite H1. cbn [mbind option_bind]. rewrite Htok.
    assert (H2 : truthy (Some tok) = true) by (destruct tok; [contradiction | reflexivity]).
    rewrite H2. cbn [with_credential]. apply lookup_insert_eq.
  - reflexivity.
Qed.

Lemma agent_details_request_witness :
  requests_sent (View_Agent_Details (Some (mkContext true)) "ALPHA") alpha_state
    = [request_of (self alpha_state) "GET" "my/agent" (Some "ALPHA") false no_kwargs]
  /\ req_url (request_of (self alpha_state) "GET" "my/agent" (Some "ALPHA") false no_kwargs)
       = "https://api.spacetraders.io/v2/my/agent"
  /\ req_headers (request_of (self alpha_state) "GET" "my/agent" (Some "ALPHA") false
                    no_kwargs) !! "Authorization" = Some "Bearer tok123".
Proof.
  destruct (agent_details_request (Some (mkContext true)) "ALPHA" "tok123" alpha_state
              eq_refl ltac:(discriminate) eq_refl ltac:(discriminate))
    as (Hsent & _ & Hurl & Hauth & _).
  split; [exact Hsent |]. split; [exact Hurl | exact Hauth].
Defined.

(** X16. [Get_Public_Agent] sends no credential: its one request, a GET
    of [agents/<symbol>], has [Content-Type] as its only header, also
    when the agent has a stored token and an account token is
    configured. *)
Theorem public_agent_sends_no_credential (ctx : option SpaceTradersContext)
    (agent_symbol : string) (s : State) :
  ready ctx = true ->
  exists req,
    requests_sent (Get_Public_Agent ctx agent_symbol) s = [req]
    /\ req_method req = "GET"
    /\ req_url req = base_url (self s) +:+ "/agents/" +:+ agent_symbol
    /\ req_headers req = {["Content-Type" := "application/json"]}.
Proof.
  intros Hready.
  exists (request_of (self s) "GET" ("agents/" +:+ agent_symbol) None false no_kwargs).
  conjuncts.
  - rewrite Get_Public_Agent_tool.
    rewrite tool_sent by (first [apply reads_public_agent_reply | apply answering_text]).
    rewrite Hready. reflexivity.
  - reflexivity.
  - reflexivity.
  - unfold request_of. cbn [req_headers resolve_credential nonempty truthy mbind option_bind
                            with_credential caller_headers no_kwargs kw_headers default].
    apply insert_empty.
Qed.

Lemma public_agent_sends_no_credential_witness :
  tokens (self alpha_state) !! "ALPHA" = Some "tok123"
  /\ account_token (self alpha_state) = Some "account-key"
  /\ exists req,
       requests_sent (Get_Public_Agent (Some (mkContext true)) "ALPHA") alpha_state = [req]
       /\ req_url req = "https://api.spacetraders.io/v2/agents/ALPHA"
       /\ req_headers req !! "Authorization" = None.
Proof.
  split; [reflexivity |]. split; [reflexivity |].
  destruct (public_agent_sends_no_credential (Some (mkContext true)) "ALPHA" alpha_state
              eq_refl) as (req & Hsent & _ & Hurl & Hheaders).
  exists req. split; [exact Hsent |]. split; [exact Hurl |].
  rewrite Hheaders. reflexivity.
Defined.

(** X17. A reply of status 204 to [Get_Ship_Cooldown] is answered with
    "No cooldown", whatever its body, which is not read; the request is
    a GET of [my/ships/<ship>/cooldown]. *)
Theorem no_cooldown (ctx : option SpaceTradersContext) (agent_symbol ship_symbol : string)
    (s : State) (response : Response) :
  ready ctx = true ->
  let req := request_of (self s) "GET" ("my/ships/" +:+ ship_symbol +:+ "/cooldown")
               (Some agent_symbol) false no_kwargs in
  remote (world s) req = Responds response ->
  status_code response = 204 ->
  Get_Ship_Cooldown ctx agent_symbol ship_symbol s = (Ok (Text "No cooldown"), dispatched s req)
  /\ req_url req = base_url (self s) +:+ "/my/ships/" +:+ ship_symbol +:+ "/cooldown".
Proof.
  intros Hready req Hreply Hstatus. split; [| reflexivity].
  rewrite Get_Ship_Cooldown_tool.
  rewrite (tool_replied ctx "GET" ("my/ships/" +:+ ship_symbol +:+ "/cooldown")
             (Some agent_symbol) false no_kwargs cooldown_reply _ s response Hready
             eq_refl Hreply).
  unfold try_except, cooldown_reply. rewrite Hstatus. reflexivity.
Qed.

Lemma no_cooldown_witness :
  (Get_Ship_Cooldown (Some (mkContext true)) "ALPHA" "ALPHA-1" cooldown_state).1
    = Ok (Text "No cooldown")
  /\ map req_url (requests_sent (Get_Ship_Cooldown (Some (mkContext true)) "ALPHA" "ALPHA-1")
                    cooldown_state)
       = ["https://api.spacetraders.io/v2/my/ships/ALPHA-1/cooldown"].
Proof.
  rewrite (proj1 (no_cooldown (Some (mkContext true)) "ALPHA" "ALPHA-1" cooldown_state
                    (mkResponse 204 "") eq_refl eq_refl eq_refl)).
  split; [reflexivity |]. vm_compute. reflexivity.
Defined.

Lemma failure_run (prefix : string) (response : Response) (s : State) :
  failure prefix response s =
    match json.loads (text response) with
    | json.SyntaxError => (Raise JSONDecodeError, s)
    | json.Outside => (Beyond, s)
    | json.Done (json.Obj pairs) =>
        match default (json.Obj []) (json.get "error" pairs) with
        | json.Obj details =>
            bind (format_value
                    (Some (default (json.Str "Unknown error") (json.get "message" details))))
              (fun shown =>
                 ret (Text (prefix +:+ ": " +:+ shown +:+ " (Status code: "
                            +:+ pretty (status_code response) +:+ ")"))) s
        | _ => (Raise AttributeError, s)
        end
    | json.Done _ => (Raise AttributeError, s)
    end.
Proof.
  unfold failure, response_json.
  destruct (json.loads (text response)) as [[| | | | | pairs] | |]; try reflexivity.
  unfold dict_get_default, dict_get, mbind, M_bind, bind, mret, M_ret, ret.
  destruct (default (json.Obj []) (json.get "error" pairs)); reflexivity.
Qed.

(** X18. What [View_Agent_Details] answers to a reply whose status is
    not 200: the message of the error of the body, unchanged, with the
    status code; "Unknown error" when the body is an object without an
    [error]; and the caught exception when the body is not JSON or is
    JSON but not an object. *)
Theorem agent_details_failure (ctx : option SpaceTradersContext) (agent_symbol : string)
    (s : State) (response : Response) :
  ready ctx = true ->
  remote (world s) (request_of (self s) "GET" "my/agent" (Some agent_symbol) false no_kwargs)
    = Responds response ->
  status_code response <> 200 ->
  let answer := (View_Agent_Details ctx agent_symbol s).1 in
  (forall pairs details message,
     json.loads (text response) = json.Done (json.Obj pairs) ->
     json.get "error" pairs = Some (json.Obj details) ->
     json.get "message" details = Some (json.Str message) ->
     answer = Ok (Text ("Failed to get agent details: " +:+ message +:+ " (Status code: "
                        +:+ pretty (status_code response) +:+ ")")))
  /\ (forall pairs,
        json.loads (text response) = json.Done (json.Obj pairs) ->
        json.get "error" pairs = None ->
        answer = Ok (Text ("Failed to get agent details: Unknown error (Status code: "
                           +:+ pretty (status_code response) +:+ ")")))
  /\ (json.loads (text response) = json.SyntaxError ->
      answer = Ok (TextAndError "Error retrieving agent details: " JSONDecodeError))
  /\ (forall v,
        json.loads (text response) = json.Done v -> is_object v = false ->
        answer = Ok (TextAndError "Error retrieving agent details: " AttributeError)).
Proof.
  intros Hready Hreply Hstatus. cbn zeta.
  rewrite View_Agent_Details_tool.
  rewrite (tool_replied ctx "GET" "my/agent" (Some agent_symbol) false no_kwargs
             view_agent_reply _ s response Hready eq_refl Hreply).
  unfold try_except, view_agent_reply.
  destruct (status_code response =? 200) eqn:Heq; [apply Z.eqb_eq in Heq; contradiction |].
  rewrite failure_run. conjuncts.
  - intros pairs details message -> Herror Hmessage. rewrite Herror. cbn [default from_option].
    unfold id. rewrite Hmessage. reflexivity.
  - intros pairs -> Herror. rewrite Herror. reflexivity.
  - intros ->. reflexivity.
  - intros v -> Hobj. destruct v; try reflexivity. discriminate.
Qed.

Lemma agent_details_failure_witness :
  (View_Agent_Details (Some (mkContext true)) "ALPHA"
     (sample_state ∅ None (answers 404 NOT_FOUND))).1
    = Ok (Text "Failed to get agent details: Agent not found. (Status code: 404)")
  /\ (View_Agent_Details (Some (mkContext true)) "ALPHA"
        (sample_state ∅ None (answers 502 "<html>Bad Gateway</html>"))).1
       = Ok (TextAndError "Error retrieving agent details: " JSONDecodeError).
Proof.
  split.
  - apply (proj1 (agent_details_failure (Some (mkContext true)) "ALPHA"
                    (sample_state ∅ None (answers 404 NOT_FOUND)) (mkResponse 404 NOT_FOUND)
                    eq_refl eq_refl ltac:(discriminate))
             [("error", json.Obj [("message", json.Str "Agent not found.");
                                  ("code", json.Num "404")])]
             [("message", json.Str "Agent not found."); ("code", json.Num "404")]
             "Agent not found."); reflexivity.
  - apply (proj1 (proj2 (proj2 (agent_details_failure (Some (mkContext true)) "ALPHA"
                    (sample_state ∅ None (answers 502 "<html>Bad Gateway</html>"))
                    (mkResponse 502 "<html>Bad Gateway</html>")
                    eq_refl eq_refl ltac:(discriminate))))).
    reflexivity.
Defined.

(** X19. A reply of status 200 to [View_Agent_Details] whose body is an
    object without [data] is answered with the five fields, all null,
    and not with an error; one whose [data] is there and is not an
    object (null, for one) is answered with the caught
    [AttributeError]. *)
Theorem agent_details_without_data (ctx : option SpaceTradersContext)
    (agent_symbol : string) (s : State) (response : Response)
    (pairs : list (string * json.value)) :
  ready ctx = true ->
  remote (world s) (request_of (self s) "GET" "my/agent" (Some agent_symbol) false no_kwargs)
    = Responds response ->
  status_code response = 200 ->
  json.loads (text response) = json.Done (json.Obj pairs) ->
  (json.get "data" pairs = None ->
   (View_Agent_Details ctx agent_symbol s).1 = Ok (Text NO_DETAILS))
  /\ (forall data, json.get "data" pairs = Some data -> is_object data = false ->
      (View_Agent_Details ctx agent_symbol s).1
        = Ok (TextAndError "Error retrieving agent details: " AttributeError)).
Proof.
  intros Hready Hreply Hstatus Hloads.
  rewrite View_Agent_Details_tool.
  rewrite (tool_replied ctx "GET" "my/agent" (Some agent_symbol) false no_kwargs
             view_agent_reply _ s response Hready eq_refl Hreply).
  unfold try_except, view_agent_reply. rewrite Hstatus. cbn [Z.eqb Pos.eqb].
  unfold agent_details, response_json. rewrite Hloads.
  unfold dict_get_default, dict_get, mbind, M_bind, bind, mret, M_ret, ret.
  split.
  - intros ->. reflexivity.
  - intros data -> Hobj. destruct data; try reflexivity. discriminate.
Qed.

Lemma agent_details_without_data_witness :
  (View_Agent_Details (Some (mkContext true)) "ALPHA"
     (sample_state ∅ None (answers 200 "{}"))).1 = Ok (Text NO_DETAILS)
  /\ (View_Agent_Details (Some (mkContext true)) "ALPHA"
        (sample_state ∅ None (answers 200 (json.text "{'data': null}")))).1
       = Ok (TextAndError "Error retrieving agent details: " AttributeError).
Proof.
  split.
  - apply (proj1 (agent_details_without_data (Some (mkContext true)) "ALPHA"
                    (sample_state ∅ None (answers 200 "{}")) (mkResponse 200 "{}") []
                    eq_refl eq_refl eq_refl eq_refl)).
    reflexivity.
  - apply (proj2 (agent_details_without_data (Some (mkContext true)) "ALPHA"
                    (sample_state ∅ None (answers 200 (json.text "{'data': null}")))
                    (mkResponse 200 (json.text "{'data': null}")) [("data", json.Null)]
                    eq_refl eq_refl eq_refl eq_refl) json.Null); reflexivity.
Defined.

(** ** The lifespan of the server *)

Lemma get_spacetraders_api_key_run (s : State) :
  get_spacetraders_api_key s =
    (if truthy (api_key (world s)) then Ok (default "" (api_key (world s)))
     else Raise (ValueError NO_KEY), s).
Proof.
  unfold get_spacetraders_api_key, mbind, M_bind, bind, get_world.
  destruct (truthy (api_key (world s))); reflexivity.
Qed.

(** X20. Without [SPACETRADERS_API_KEY] (unset or empty) the server
    does not start: entering the lifespan raises [ValueError], prints
    one line with the message, and leaves the global context [None];
    when there was none before, no context object is created. *)
Theorem startup_fails_without_key (sv : Server) :
  truthy (api_key (world (state sv))) = false ->
  (lifespan_enter sv).1 = Raise (ValueError NO_KEY)
  /\ context (lifespan_enter sv).2 = None
  /\ trace (world (state (lifespan_enter sv).2))
       = trace (world (state sv)) ++ [EvPrint ("Error during initialization: " +:+ NO_KEY)]
  /\ self (state (lifespan_enter sv).2) = self (state sv)
  /\ (context sv = None -> objects (lifespan_enter sv).2 = objects sv).
Proof.
  intros Hkey. unfold lifespan_enter. rewrite get_spacetraders_api_key_run, Hkey.
  unfold lifespan_except, lifespan_finally. cbn [str context objects state].
  destruct (context sv) as [ref |]; cbn [fst snd context objects state];
    conjuncts; try reflexivity. discriminate.
Qed.

Lemma startup_fails_without_key_witness :
  (lifespan_enter (imported keyless_world)).1 = Raise (ValueError NO_KEY)
  /\ context (lifespan_enter (imported keyless_world)).2 = None
  /\ objects (lifespan_enter (imported keyless_world)).2 = [].
Proof.
  destruct (startup_fails_without_key (imported keyless_world) eq_refl)
    as (Hraise & Hcontext & _ & _ & Hobjects).
  split; [exact Hraise |]. split; [exact Hcontext | exact (Hobjects eq_refl)].
Defined.

Lemma lifespan_enter_run (sv : Server) :
  truthy (api_key (world (state sv))) = true ->
  context sv = None ->
  lifespan_enter sv =
    (Ok (List.length (objects sv)),
     mkServer (objects sv ++ [mkContext true]) (Some (List.length (objects sv))) (state sv)).
Proof.
  intros Hkey Hcontext. unfold lifespan_enter.
  rewrite get_spacetraders_api_key_run, Hkey, Hcontext.
  f_equal. f_equal.
  rewrite insert_app_r_alt by lia. rewrite Nat.sub_diag. reflexivity.
Qed.

(** X21. The life of a context: entering the lifespan with a key, and
    no context yet, yields a new context that says it is initialized,
    and touches neither the client nor the world; after the exit that
    same context says it is not, the global context is [None] again,
    and the contexts of earlier lifespans are as they were; and
    entering again yields another context, initialized, while the old
    one stays as it is. *)
Theorem lifespan_of_a_context (sv : Server) :
  truthy (api_key (world (state sv))) = true ->
  context sv = None ->
  let ref := List.length (objects sv) in
  let started := (lifespan_enter sv).2 in
  let stopped := (lifespan_exit None started).2 in
  let restarted := (lifespan_enter stopped).2 in
  (lifespan_enter sv).1 = Ok ref
  /\ ready (lifespan_context started ref) = true
  /\ context started = Some ref
  /\ state started = state sv
  /\ ready (lifespan_context stopped ref) = false
  /\ context stopped = None
  /\ state stopped = state sv
  /\ (forall old, (old < ref)%nat ->
        lifespan_context stopped old = lifespan_context sv old)
  /\ (lifespan_enter stopped).1 = Ok (S ref)
  /\ ready (lifespan_context restarted (S ref)) = true
  /\ ready (lifespan_context restarted ref) = false.
Proof.
  intros Hkey Hcontext. cbn zeta.
  rewrite (lifespan_enter_run sv Hkey Hcontext). cbn [fst snd].
  unfold lifespan_exit, lifespan_finally. cbn [fst snd context objects state].
  assert (Hstop : <[List.length (objects sv) := mkContext false]>
                    (objects sv ++ [mkContext true]) = objects sv ++ [mkContext false]).
  { rewrite insert_app_r_alt by lia. rewrite Nat.sub_diag. reflexivity. }
  rewrite Hstop.
  rewrite (lifespan_enter_run (mkServer (objects sv ++ [mkContext false]) None (state sv))
             Hkey eq_refl).
  cbn [fst snd objects context state]. unfold lifespan_context. cbn [objects].
  rewrite length_app. cbn [List.length].
  replace (List.length (objects sv) + 1)%nat with (S (List.length (objects sv))) by lia.
  conjuncts; try reflexivity.
  - rewrite lookup_app_r by lia. rewrite Nat.sub_diag. reflexivity.
  - rewrite lookup_app_r by lia. rewrite Nat.sub_diag. reflexivity.
  - intros old Hold. apply lookup_app_l. exact Hold.
  - rewrite lookup_app_r by (rewrite length_app; cbn; lia).
    rewrite length_app. cbn [List.length].
    replace (S (List.length (objects sv)) - (List.length (objects sv) + 1))%nat with 0%nat
      by lia.
    reflexivity.
  - rewrite <- app_assoc. rewrite lookup_app_r by lia. rewrite Nat.sub_diag. reflexivity.
Qed.

Lemma lifespan_of_a_context_witness :
  (lifespan_enter (imported (sample_world (Some "account-key") (answers 200 "{}")))).1 = Ok 0%nat
  /\ ready (lifespan_context
              (lifespan_enter (imported (sample_world (Some "account-key")
                                           (answers 200 "{}")))).2 0) = true
  /\ ready (lifespan_context
              (lifespan_exit None
                 (lifespan_enter (imported (sample_world (Some "account-key")
                                              (answers 200 "{}")))).2).2 0) = false.
Proof.
  destruct (lifespan_of_a_context
              (imported (sample_world (Some "account-key") (answers 200 "{}")))
              eq_refl eq_refl) as (Hok & Hready & _ & _ & Hstopped & _).
  split; [exact Hok |]. split; [exact Hready | exact Hstopped].
Defined.



Lemma new_client_loaded (w : World) :
  (new_client w).1 = Ok tt -> exists m, (_load_tokens (blank w)).1 = Ok m.
Proof.
  unfold blank.
  rewrite (load_tokens_world (mkClient "" ∅ 0 None) (mkClient PRODUCTION ∅ 0 None) w).
  unfold new_client, __init__, mbind, M_bind. unfold bind at 1. unfold get_self at 1.
  unfold bind at 1. unfold put_self at 1. cbn [self world tokens last_request_time
                                                account_token].
  unfold bind at 1. change "https://api.spacetraders.io/v2" with PRODUCTION.
  destruct (_load_tokens (mkState (mkClient PRODUCTION ∅ 0 None) w)) as [[m | e |] s'];
    cbn [fst]; [intros _; exists m; reflexivity | discriminate | discriminate].
Qed.

(** X23. Once the process has been imported and the lifespan entered,
    the client has an account token: a call with [use_account_token] is
    never refused for a missing key, the guard of [make_request] having
    been passed at startup by [get_spacetraders_api_key]. *)
Theorem started_server_has_account_token (w : World) (ref : nat) :
  (new_client w).1 = Ok tt ->
  (lifespan_enter (imported w)).1 = Ok ref ->
  let s := state (lifespan_enter (imported w)).2 in
  truthy (account_token (self s)) = true
  /\ ready (lifespan_context (lifespan_enter (imported w)).2 ref) = true
  /\ forall method endpoint agent_symbol kwargs,
       (make_request method endpoint agent_symbol true kwargs s).1
         = of_reply (remote (world s)
                       (request_of (self s) method endpoint agent_symbol true kwargs)).
Proof.
  intros Hclient Hstart. cbn zeta.
  destruct (new_client_loaded w Hclient) as [m Hload].
  unfold imported in *. rewrite (new_client_run w m Hload) in *. cbn [snd] in *.
  set (s0 := mkState (mkClient PRODUCTION m (clock (tick w)) (api_key w))
               (if truthy (api_key w) then emit (EvNow (clock (tick w))) (tick w)
                else emit (EvPrint WARNING) (emit (EvNow (clock (tick w))) (tick w)))) in *.
  assert (Hkey : api_key (world s0) = api_key w).
  { unfold s0. cbn [world].
    assert (Htick : api_key (tick w) = api_key w)
      by (unfold tick; destruct (lag w); reflexivity).
    destruct (truthy (api_key w)); cbn [emit api_key]; exact Htick. }
  destruct (truthy (api_key w)) eqn:Htruthy.
  - assert (Hrun := lifespan_enter_run (mkServer [] None s0)).
    cbn [state context objects] in Hrun. rewrite Hkey in Hrun.
    specialize (Hrun Htruthy eq_refl). rewrite Hrun in *. cbn [fst snd state] in *.
    injection Hstart as <-.
    assert (Hacct : truthy (account_token (self s0)) = true) by exact Htruthy.
    conjuncts; [exact Hacct | reflexivity |].
    intros method endpoint agent_symbol kwargs.
    rewrite make_request_outcome. unfold refused. rewrite Hacct. reflexivity.
  - exfalso. unfold lifespan_enter in Hstart.
    rewrite get_spacetraders_api_key_run in Hstart. cbn [state] in Hstart.
    rewrite Hkey, Htruthy in Hstart.
    unfold lifespan_except in Hstart. cbn [str fst] in Hstart. discriminate.
Qed.

Lemma started_server_has_account_token_witness :
  let w := sample_world (Some "account-key") (answers 200 "{}") in
  truthy (account_token (self (state (lifespan_enter (imported w)).2))) = true
  /\ ready (lifespan_context (lifespan_enter (imported w)).2 0) = true.
Proof.
  cbn zeta.
  destruct (started_server_has_account_token
              (sample_world (Some "account-key") (answers 200 "{}")) 0 eq_refl eq_refl)
    as (Hacct & Hready & _).
  split; [exact Hacct | exact Hready].
Defined.

(** ** Dispatches one after the other *)

Lemma suspension_gap (s : State) :
  monotone (world s) ->
  last_request_time (self s) + min_interval <= clock (after_suspension s)
  /\ monotone (after_suspension s).
Proof.
  intros Hmono. destruct (tick_monotone (world s) Hmono) as [Hfirst Hmono1].
  unfold after_suspension, elapsed, first_reading.
  destruct (clock (tick (world s)) - last_request_time (self s) <? min_interval) eqn:Hlt.
  - apply Z.ltb_lt in Hlt.
    set (d := min_interval - (clock (tick (world s)) - last_request_time (self s))).
    set (w := advance d (emit (EvSleep d)
                (emit (EvNow (clock (tick (world s)))) (tick (world s))))).
    assert (Hm : monotone w) by exact Hmono1.
    assert (Hw : clock w = clock (tick (world s)) + d) by reflexivity.
    destruct (tick_monotone w Hm) as [Hle Hm'].
    split; [| exact Hm']. unfold d in Hw. lia.
  - apply Z.ltb_ge in Hlt. split; [cbn [emit clock]; lia | exact Hmono1].
Qed.

Lemma dispatch_gap (c : Call) (s : State) :
  monotone (world s) ->
  last_request_time (self s) + min_interval <= last_request_time (self (dispatch c s).2)
  /\ monotone (world (dispatch c s).2).
Proof.
  intros Hmono. destruct (suspension_gap s Hmono) as [Hstamp Hmono2].
  destruct (tick_monotone _ Hmono2) as [Hle Hmono3].
  assert (Hlimit : last_request_time (self s) + min_interval
                     <= last_request_time (self (_rate_limit s).2)
                   /\ monotone (world (_rate_limit s).2)).
  { rewrite rate_limit_run.
    cbn [snd self world last_request_time set_last_request_time].
    unfold second_reading. split; [lia | exact Hmono3]. }
  destruct Hlimit as [Hgap Hafter].
  unfold dispatch. rewrite make_request_self. split; [exact Hgap |].
  rewrite make_request_run.
  destruct (refused (self s) (call_account c)); [exact Hafter |].
  rewrite requests_request_run. exact Hafter.
Qed.

(** X24. On a clock that does not go backwards, the stamps of any run
    of calls of [make_request] one after the other, whatever their
    arguments and outcomes (a response, a call refused for want of the
    account token, a failed connection), are each at least
    [min_interval] after the one before. *)
Theorem dispatches_are_spaced (calls : list Call) (s : State) :
  monotone (world s) ->
  spaced (last_request_time (self s)) (stamps calls s).
Proof.
  revert s. induction calls as [| c rest IH]; intros s Hmono; [exact I |].
  cbn [stamps spaced]. destruct (dispatch_gap c s Hmono) as [Hgap Hafter].
  split; [exact Hgap | apply IH; exact Hafter].
Qed.

Lemma dispatches_are_spaced_witness :
  monotone (world keyless_state)
  /\ spaced (last_request_time (self keyless_state))
       (stamps [mkCall "GET" "my/agent" (Some "ALPHA") false no_kwargs;
                mkCall "POST" "register" None true no_kwargs;
                mkCall "GET" "my/ships" (Some "ALPHA") false no_kwargs] keyless_state).
Proof.
  assert (H : monotone (world keyless_state)).
  { unfold monotone. cbn. repeat constructor; lia. }
  split; [exact H |].
  exact (dispatches_are_spaced
           [mkCall "GET" "my/agent" (Some "ALPHA") false no_kwargs;
            mkCall "POST" "register" None true no_kwargs;
            mkCall "GET" "my/ships" (Some "ALPHA") false no_kwargs] keyless_state H).
Defined.
